(** * Flight aggregator: offer normalisation and price ranking

    A shallow embedding of [FlightAggregator] (flight_aggregator.py) and of
    the part of [FlightSearchGUI._perform_search] (flight_gui.py) that
    builds the search arguments.

    Python values are embedded as a tree type [value]; dictionaries inside
    that tree are association lists in insertion order.  The keyword
    arguments passed to the Amadeus client form a flat dictionary and are
    a [gmap string value].  Code that can raise returns a [result].
    Calls to [print] do not influence any returned value and are left out,
    except for the [len] call inside one of them, which can raise. *)

From Stdlib Require Import ZArith Ascii String List Permutation Sorted Lia.
From stdpp Require Import base option list gmap strings pretty.

Local Open Scope string_scope.

(** ** Exceptions and the error monad *)

Inductive pyerr : Set :=
| AttributeError
| TypeError
| ValueError
| KeyError
| OverflowError.

Inductive result (A : Type) : Type :=
| Ok (a : A)
| Raise (e : pyerr).

Arguments Ok {A} a.
Arguments Raise {A} e.

Definition bind {A B : Type} (r : result A) (k : A -> result B) : result B :=
  match r with
  | Ok a => k a
  | Raise e => Raise e
  end.

Notation "'do' x <- r ; k" := (bind r (fun x => k))
  (at level 10, x name, r at level 100, k at level 200).

(** Evaluates [f] on the elements from left to right and stops at the first
    exception, as a list comprehension or the key pass of [list.sort] does. *)
Fixpoint map_result {A B : Type} (f : A -> result B) (l : list A) : result (list B) :=
  match l with
  | [] => Ok []
  | x :: xs =>
      do y <- f x;
      do ys <- map_result f xs;
      Ok (y :: ys)
  end.

Definition is_ok {A : Type} (r : result A) : bool :=
  match r with Ok _ => true | Raise _ => false end.

(** ** Python floats

    A finite binary64 value is an integer multiple of 2^-1074; [Ffinite neg u]
    stands for (-1)^neg * u * 2^-1074, so that the order of finite floats is
    the order of integers.  The sign is kept apart so that -0.0 exists. *)

Inductive pyfloat : Set :=
| Fnan
| Finf (neg : bool)
| Ffinite (neg : bool) (units : Z).

Definition float_inf_units : Z := 2 ^ 2098.

(** Position of a float that is not a nan on the extended integer line. *)
Definition float_rank (f : pyfloat) : Z :=
  match f with
  | Fnan => 0
  | Finf false => float_inf_units
  | Finf true => - float_inf_units
  | Ffinite false u => u
  | Ffinite true u => - u
  end.

Definition is_nan (f : pyfloat) : bool :=
  match f with Fnan => true | _ => false end.

(** [f < g] on floats: false as soon as one side is a nan. *)
Definition float_lt (f g : pyfloat) : bool :=
  negb (is_nan f) && negb (is_nan g) && (float_rank f <? float_rank g)%Z.

(** [f == g] on floats. *)
Definition float_eq (f g : pyfloat) : bool :=
  negb (is_nan f) && negb (is_nan g) && (float_rank f =? float_rank g)%Z.

(** Correct rounding (to nearest, ties to even) of the positive rational
    [num / den], in units of 2^-1074; [None] when the rounded value does not
    fit the binary64 exponent range. *)
Definition round_units (num den : Z) : option Z :=
  if (num =? 0)%Z then Some 0%Z else
  let e0 := (Z.log2 num - Z.log2 den)%Z in
  let reaches :=
    if (0 <=? e0)%Z then (den * 2 ^ e0 <=? num)%Z
    else (den <=? num * 2 ^ (- e0))%Z in
  let e := if reaches then e0 else (e0 - 1)%Z in
  let p := Z.max (e - 52) (-1074) in
  let n' := if (0 <=? p)%Z then num else (num * 2 ^ (- p))%Z in
  let d' := if (0 <=? p)%Z then (den * 2 ^ p)%Z else den in
  let q := (n' / d')%Z in
  let r := (n' mod d')%Z in
  let m :=
    if (2 * r <? d')%Z then q
    else if (d' <? 2 * r)%Z then (q + 1)%Z
    else if Z.even q then q else (q + 1)%Z in
  let u := (m * 2 ^ (p + 1074))%Z in
  if (u <? float_inf_units)%Z then Some u else None.

(** The float nearest to (-1)^neg * num / den; overflow gives an infinity,
    as string conversion does. *)
Definition float_of_ratio (neg : bool) (num den : Z) : pyfloat :=
  match round_units num den with
  | Some u => Ffinite neg u
  | None => Finf neg
  end.

(** [float(n)] for an int: [OverflowError] instead of an infinity. *)
Definition float_of_int (z : Z) : result pyfloat :=
  match round_units (Z.abs z) 1 with
  | Some u => Ok (Ffinite (z <? 0)%Z u)
  | None => Raise OverflowError
  end.

(** ** [float(s)] for a string

    Surrounding white space is dropped, single underscores between digits
    are allowed, and the rest is a signed decimal literal with optional
    fraction and exponent, or one of inf, infinity, nan in any letter case.
    Strings are sequences of [ascii] characters. *)

Definition is_space (c : ascii) : bool :=
  let n := nat_of_ascii c in
  (n =? 32)%nat || ((9 <=? n)%nat && (n <=? 13)%nat).

Definition is_digit (c : ascii) : bool :=
  let n := nat_of_ascii c in (48 <=? n)%nat && (n <=? 57)%nat.

Definition digit_value (c : ascii) : Z := Z.of_nat (nat_of_ascii c) - 48.

Definition to_lower (c : ascii) : ascii :=
  let n := nat_of_ascii c in
  if (65 <=? n)%nat && (n <=? 90)%nat then ascii_of_nat (n + 32) else c.

Fixpoint drop_spaces (s : list ascii) : list ascii :=
  match s with
  | c :: s' => if is_space c then drop_spaces s' else s
  | [] => []
  end.

Definition strip (s : list ascii) : list ascii :=
  rev (drop_spaces (rev (drop_spaces s))).

Definition after_underscore (prev : option ascii) : bool :=
  match prev with
  | Some p => Ascii.eqb p "_"
  | None => false
  end.

(** Removes the underscores; [None] when one of them does not stand between
    two digits.  [prev] is the character before [s], if any. *)
Fixpoint drop_underscores (prev : option ascii) (s : list ascii) : option (list ascii) :=
  match s with
  | [] => if after_underscore prev then None else Some []
  | c :: s' =>
      if Ascii.eqb c "_" then
        match prev with
        | Some p => if is_digit p then drop_underscores (Some c) s' else None
        | None => None
        end
      else if after_underscore prev && negb (is_digit c) then None
      else option_map (cons c) (drop_underscores (Some c) s')
  end.

(** Longest prefix of digits, as the number it denotes after [acc], with its
    length and the rest of the input. *)
Fixpoint take_digits (acc : Z) (len : nat) (s : list ascii) : Z * nat * list ascii :=
  match s with
  | c :: s' =>
      if is_digit c then take_digits (10 * acc + digit_value c)%Z (S len) s'
      else (acc, len, s)
  | [] => (acc, len, [])
  end.

Definition take_sign (s : list ascii) : bool * list ascii :=
  match s with
  | c :: s' =>
      if Ascii.eqb c "-" then (true, s')
      else if Ascii.eqb c "+" then (false, s')
      else (false, s)
  | [] => (false, [])
  end.

(** The exponent part: consumed only when at least one digit follows. *)
Definition take_exponent (s : list ascii) : Z * list ascii :=
  match s with
  | c :: s' =>
      if Ascii.eqb (to_lower c) "e" then
        let '(eneg, s1) := take_sign s' in
        let '(e, n, s2) := take_digits 0 0 s1 in
        match n with
        | O => (0%Z, s)
        | S _ => ((if eneg then - e else e)%Z, s2)
        end
      else (0%Z, s)
  | [] => (0%Z, [])
  end.

Definition parse_decimal (s : list ascii) : option pyfloat :=
  let '(neg, s0) := take_sign s in
  let '(ip, ni, s1) := take_digits 0 0 s0 in
  let '(m, nf, s2) :=
    match s1 with
    | c :: s1' =>
        if Ascii.eqb c "." then
          let '(m, n, s2) := take_digits ip 0 s1' in (m, n, s2)
        else (ip, O, s1)
    | [] => (ip, O, [])
    end in
  match (ni + nf)%nat with
  | O => None
  | S _ =>
      let '(ex, s3) := take_exponent s2 in
      match s3 with
      | [] =>
          let d := (ex - Z.of_nat nf)%Z in
          Some (if (0 <=? d)%Z then float_of_ratio neg (m * 10 ^ d) 1
                else float_of_ratio neg m (10 ^ (- d)))
      | _ :: _ => None
      end
  end.

Definition parse_inf_or_nan (s : list ascii) : option pyfloat :=
  let '(neg, s0) := take_sign s in
  let w := string_of_list_ascii (map to_lower s0) in
  if String.eqb w "inf" then Some (Finf neg)
  else if String.eqb w "infinity" then Some (Finf neg)
  else if String.eqb w "nan" then Some Fnan
  else None.

Definition float_of_string (s : string) : result pyfloat :=
  match drop_underscores None (list_ascii_of_string s) with
  | None => Raise ValueError
  | Some cs =>
      let body := strip cs in
      match parse_decimal body with
      | Some f => Ok f
      | None =>
          match parse_inf_or_nan body with
          | Some f => Ok f
          | None => Raise ValueError
          end
      end
  end.

(** ** Python values *)

#[local] Set Warnings "-register-all".

Inductive value : Type :=
| VNone
| VBool (b : bool)
| VInt (z : Z)
| VFloat (f : pyfloat)
| VStr (s : string)
| VList (l : list value)
| VDict (d : list (string * value)).

(** First binding of [k] in a dictionary; a dictionary holds at most one. *)
Fixpoint dict_get (d : list (string * value)) (k : string) : option value :=
  match d with
  | [] => None
  | (k', v) :: d' => if String.eqb k' k then Some v else dict_get d' k
  end.

(** [v.get(k, dflt)]: only dictionaries have the method. *)
Definition py_get (v : value) (k : string) (dflt : value) : result value :=
  match v with
  | VDict d => Ok (default dflt (dict_get d k))
  | _ => Raise AttributeError
  end.

(** [v[k]] for a string [k]. *)
Definition py_getitem (v : value) (k : string) : result value :=
  match v with
  | VDict d =>
      match dict_get d k with
      | Some x => Ok x
      | None => Raise KeyError
      end
  | _ => Raise TypeError
  end.

(** Truth value, as tested by [if v] and [not v]. *)
Definition truthy (v : value) : bool :=
  match v with
  | VNone => false
  | VBool b => b
  | VInt z => negb (z =? 0)%Z
  | VFloat f => negb (float_eq f (Ffinite false 0))
  | VStr s => negb (String.eqb s "")
  | VList l => match l with [] => false | _ :: _ => true end
  | VDict d => match d with [] => false | _ :: _ => true end
  end.

Definition py_len (v : value) : result Z :=
  match v with
  | VStr s => Ok (Z.of_nat (String.length s))
  | VList l => Ok (Z.of_nat (length l))
  | VDict d => Ok (Z.of_nat (length d))
  | _ => Raise TypeError
  end.

(** The elements a [for] loop visits: the items of a list, the keys of a
    dictionary, the characters of a string. *)
Definition py_iter (v : value) : result (list value) :=
  match v with
  | VList l => Ok l
  | VDict d => Ok (map (fun kv => VStr (fst kv)) d)
  | VStr s => Ok (map (fun c => VStr (String c "")) (list_ascii_of_string s))
  | _ => Raise TypeError
  end.

(** [float(v)]. *)
Definition py_float (v : value) : result pyfloat :=
  match v with
  | VFloat f => Ok f
  | VInt z => float_of_int z
  | VBool b => float_of_int (if b then 1 else 0)
  | VStr s => float_of_string s
  | VNone | VList _ | VDict _ => Raise TypeError
  end.

(** ** FlightAggregator.parse_flight_offer *)

(** [v.get(k1, {}).get(k2)] *)
Definition get2 (v : value) (k1 k2 : string) : result value :=
  do inner <- py_get v k1 (VDict []);
  py_get inner k2 VNone.

(** The dictionary appended to [segments] for one raw segment. *)
Definition parse_segment (segment : value) : result value :=
  do dep_airport <- get2 segment "departure" "iataCode";
  do dep_time <- get2 segment "departure" "at";
  do dep_terminal <- get2 segment "departure" "terminal";
  do arr_airport <- get2 segment "arrival" "iataCode";
  do arr_time <- get2 segment "arrival" "at";
  do arr_terminal <- get2 segment "arrival" "terminal";
  do carrier <- py_get segment "carrierCode" VNone;
  do flight_number <- py_get segment "number" VNone;
  do aircraft <- get2 segment "aircraft" "code";
  do duration <- py_get segment "duration" VNone;
  Ok (VDict
        [ ("departure",
            VDict [ ("airport", dep_airport); ("time", dep_time);
                    ("terminal", dep_terminal) ]);
          ("arrival",
            VDict [ ("airport", arr_airport); ("time", arr_time);
                    ("terminal", arr_terminal) ]);
          ("carrier", carrier);
          ("flight_number", flight_number);
          ("aircraft", aircraft);
          ("duration", duration) ]).

(** One round of the outer loop: the inner loop over the segments, then the
    dictionary appended to [parsed['itineraries']]. *)
Definition parse_itinerary (itinerary : value) : result value :=
  do segs <- py_get itinerary "segments" (VList []);
  do raw_segments <- py_iter segs;
  do segments <- map_result parse_segment raw_segments;
  do duration <- py_get itinerary "duration" VNone;
  Ok (VDict [ ("duration", duration); ("segments", VList segments) ]).

Definition parse_flight_offer (offer : value) : result value :=
  do id <- py_get offer "id" VNone;
  do total <- get2 offer "price" "total";
  do currency <- get2 offer "price" "currency";
  do its <- py_get offer "itineraries" (VList []);
  do raw_itineraries <- py_iter its;
  do itineraries <- map_result parse_itinerary raw_itineraries;
  Ok (VDict
        [ ("id", id);
          ("price", VDict [ ("total", total); ("currency", currency) ]);
          ("itineraries", VList itineraries) ]).

(** ** [list.sort(key=...)]

    The keys are computed first, one per element and in list order; then the
    list is sorted on them with [<] alone, stably.  The sort is written as
    an insertion sort: every stable sort returns the same list when [<] is a
    strict weak order on the keys, which it is on floats other than nan. *)

Section StableSort.
Context {A : Type}.

Fixpoint insert_keyed (x : pyfloat * A) (l : list (pyfloat * A)) : list (pyfloat * A) :=
  match l with
  | [] => [x]
  | y :: ys =>
      if float_lt (fst y) (fst x) then y :: insert_keyed x ys
      else x :: y :: ys
  end.

Fixpoint sort_keyed (l : list (pyfloat * A)) : list (pyfloat * A) :=
  match l with
  | [] => []
  | x :: xs => insert_keyed x (sort_keyed xs)
  end.

Definition list_sort (key : A -> result pyfloat) (l : list A) : result (list A) :=
  do keys <- map_result key l;
  Ok (map snd (sort_keyed (zip keys l))).

End StableSort.

(** ** FlightAggregator.search_flights and compare_flights *)

Record search_args : Type := {
  origin : string;
  destination : string;
  departure_date : string;
  adults : Z;
  return_date : option string;
  max_results : Z;
  currency : string;
  non_stop : bool
}.

(** What [flight_offers_search.get] does with the keyword arguments: it
    returns a response carrying [data], or raises [ResponseError]. *)
Inductive api_outcome : Type :=
| ApiResponse (data : value)
| ApiResponseError.

Definition option_str (o : option string) : value :=
  match o with
  | Some s => VStr s
  | None => VNone
  end.

(** The [params] dictionary of the outbound call. *)
Definition request_params (a : search_args) : gmap string value :=
  let params : gmap string value :=
    <["nonStop" := VBool (non_stop a)]>
    (<["currencyCode" := VStr (currency a)]>
    (<["max" := VInt (max_results a)]>
    (<["adults" := VInt (adults a)]>
    (<["departureDate" := VStr (departure_date a)]>
    (<["destinationLocationCode" := VStr (destination a)]>
    (<["originLocationCode" := VStr (origin a)]> ∅)))))) in
  if truthy (option_str (return_date a))
  then <["returnDate" := option_str (return_date a)]> params
  else params.

Definition search_flights (amadeus : gmap string value -> api_outcome)
    (a : search_args) : result value :=
  match amadeus (request_params a) with
  | ApiResponse data =>
      (* len(response.data) if response.data else 0 *)
      do _ <- (if truthy data then py_len data else Ok 0%Z);
      Ok data
  | ApiResponseError => Ok (VList [])
  end.

(** [float(x['price']['total'])] *)
Definition price_key (x : value) : result pyfloat :=
  do price <- py_getitem x "price";
  do total <- py_getitem price "total";
  py_float total.

Definition compare_flights (amadeus : gmap string value -> api_outcome)
    (a : search_args) : result (list value) :=
  do offers <- search_flights amadeus a;
  if negb (truthy offers) then Ok []
  else
    do raw_offers <- py_iter offers;
    do parsed_offers <- map_result parse_flight_offer raw_offers;
    list_sort price_key parsed_offers.

(** ** FlightSearchGUI._perform_search: the return date *)

Record date : Type := { year : nat; month : nat; day : nat }.

Definition zero_pad (width : nat) (n : nat) : string :=
  let s := pretty n in
  string_of_list_ascii (replicate (width - String.length s) "0"%char) +:+ s.

(** [d.strftime('%Y-%m-%d')] *)
Definition strftime_ymd (d : date) : string :=
  zero_pad 4 (year d) +:+ "-" +:+ zero_pad 2 (month d) +:+ "-" +:+ zero_pad 2 (day d).

(** [return_date] as [_perform_search] passes it on. *)
Definition gui_return_date (return_enabled : bool) (return_cal : date) : option string :=
  if return_enabled then Some (strftime_ymd return_cal) else None.

(** ** Vocabulary of the statements *)

(** The value stored under [k], if [v] is a dictionary that has the key. *)
Definition field (v : value) (k : string) : option value :=
  match v with
  | VDict d => dict_get d k
  | _ => None
  end.

Definition field2 (v : value) (k1 k2 : string) : option value :=
  match field v k1 with
  | Some inner => field inner k2
  | None => None
  end.

(** The elements of a field that holds a list; none when it is absent. *)
Definition items (v : value) (k : string) : list value :=
  match field v k with
  | Some (VList l) => l
  | _ => []
  end.

(** A raw offer is a nested mapping: wherever the provider's schema nests a
    mapping or a sequence of mappings, the field is either absent or of that
    kind.  All other fields are unconstrained. *)
Definition absent_or_dict (v : value) (k : string) : bool :=
  match field v k with
  | None | Some (VDict _) => true
  | Some _ => false
  end.

Definition absent_or_list (elem : value -> bool) (v : value) (k : string) : bool :=
  match field v k with
  | None => true
  | Some (VList l) => forallb elem l
  | Some _ => false
  end.

Definition is_dict (v : value) : bool :=
  match v with VDict _ => true | _ => false end.

Definition is_raw_segment (v : value) : bool :=
  is_dict v && absent_or_dict v "departure" && absent_or_dict v "arrival"
  && absent_or_dict v "aircraft".

Definition is_raw_itinerary (v : value) : bool :=
  is_dict v && absent_or_list is_raw_segment v "segments".

Definition is_raw_offer (v : value) : bool :=
  is_dict v && absent_or_dict v "price" && absent_or_list is_raw_itinerary v "itineraries".

(** The price total of a raw offer as the normaliser reads it. *)
Definition raw_total (offer : value) : value :=
  default VNone (field2 offer "price" "total").

(** [float] accepts the value. *)
Definition float_parses (v : value) : bool := is_ok (py_float v).

(** [float] accepts the value and the result is a number, not a nan. *)
Definition parses_as_number (v : value) : bool :=
  match py_float v with
  | Ok f => negb (is_nan f)
  | Raise _ => false
  end.

(** [f <= g] on floats. *)
Definition float_le (f g : pyfloat) : bool :=
  negb (is_nan f) && negb (is_nan g) && (float_rank f <=? float_rank g)%Z.

(** Order and equality of list elements through a sort key. *)
Definition le_by {A : Type} (key : A -> result pyfloat) (x y : A) : Prop :=
  exists f g, key x = Ok f /\ key y = Ok g /\ float_le f g = true.

Definition lt_by {A : Type} (key : A -> result pyfloat) (x y : A) : Prop :=
  exists f g, key x = Ok f /\ key y = Ok g /\ float_lt f g = true.

(** The key of [x] equals the float [k]. *)
Definition key_is {A : Type} (key : A -> result pyfloat) (k : pyfloat) (x : A) : bool :=
  match key x with
  | Ok f => float_eq k f
  | Raise _ => false
  end.

(** The key of [x] is a number. *)
Definition numeric_key {A : Type} (key : A -> result pyfloat) (x : A) : bool :=
  match key x with
  | Ok f => negb (is_nan f)
  | Raise _ => false
  end.

(** On lists of keyed elements, as [sort_keyed] sees them. *)
Definition keyed_le {A : Type} (x y : pyfloat * A) : Prop :=
  (float_rank (fst x) <= float_rank (fst y))%Z.

Definition keyed_number {A : Type} (x : pyfloat * A) : Prop :=
  is_nan (fst x) = false.

(** The key stored with an element is the key of that element. *)
Definition decorated {A : Type} (key : A -> result pyfloat) (x : pyfloat * A) : Prop :=
  key (snd x) = Ok (fst x).

(** Every key of a parsed segment is there. *)
Definition has_keys (v : value) (ks : list string) : bool :=
  forallb (fun k => bool_decide (is_Some (field v k))) ks.

Definition segment_keys_present (seg : value) : bool :=
  has_keys seg ["departure"; "arrival"; "carrier"; "flight_number"; "aircraft"; "duration"]
  && match field seg "departure", field seg "arrival" with
     | Some dep, Some arr =>
         has_keys dep ["airport"; "time"; "terminal"]
         && has_keys arr ["airport"; "time"; "terminal"]
     | _, _ => false
     end.

(** What the normaliser builds for a raw segment, itinerary and offer. *)
Definition segment_record (s : value) : value :=
  VDict
    [ ("departure",
        VDict [ ("airport", default VNone (field2 s "departure" "iataCode"));
                ("time", default VNone (field2 s "departure" "at"));
                ("terminal", default VNone (field2 s "departure" "terminal")) ]);
      ("arrival",
        VDict [ ("airport", default VNone (field2 s "arrival" "iataCode"));
                ("time", default VNone (field2 s "arrival" "at"));
                ("terminal", default VNone (field2 s "arrival" "terminal")) ]);
      ("carrier", default VNone (field s "carrierCode"));
      ("flight_number", default VNone (field s "number"));
      ("aircraft", default VNone (field2 s "aircraft" "code"));
      ("duration", default VNone (field s "duration")) ].

Definition itinerary_record (it : value) : value :=
  VDict [ ("duration", default VNone (field it "duration"));
          ("segments", VList (map segment_record (items it "segments"))) ].

Definition offer_record (offer : value) : value :=
  VDict
    [ ("id", default VNone (field offer "id"));
      ("price", VDict [ ("total", default VNone (field2 offer "price" "total"));
                        ("currency", default VNone (field2 offer "price" "currency")) ]);
      ("itineraries", VList (map itinerary_record (items offer "itineraries"))) ].

(** A parsed segment against the raw segment it was made from: all keys are
    there, and a terminal or an aircraft code that the raw segment lacks is
    [None]. *)
Definition segment_complete (raw out : value) : Prop :=
  segment_keys_present out = true
  /\ (field2 raw "departure" "terminal" = None ->
      field2 out "departure" "terminal" = Some VNone)
  /\ (field2 raw "arrival" "terminal" = None ->
      field2 out "arrival" "terminal" = Some VNone)
  /\ (field2 raw "aircraft" "code" = None -> field out "aircraft" = Some VNone).

(** ** Sample data *)

Definition sample_args : search_args :=
  {| origin := "JFK"; destination := "LAX"; departure_date := "2026-03-01";
     adults := 1; return_date := None; max_results := 10; currency := "USD";
     non_stop := false |}.

(** A client whose every call raises [ResponseError]. *)
Definition failing_client : gmap string value -> api_outcome :=
  fun _ => ApiResponseError.

(** A client whose every call returns [data]. *)
Definition client_returning (data : value) : gmap string value -> api_outcome :=
  fun _ => ApiResponse data.

(** A one-way offer of one segment; the segment has neither terminals nor
    an aircraft. *)
Definition sample_segment : value :=
  VDict [ ("departure", VDict [ ("iataCode", VStr "JFK"); ("at", VStr "2026-03-01T08:00:00") ]);
          ("arrival", VDict [ ("iataCode", VStr "LAX"); ("at", VStr "2026-03-01T11:30:00") ]);
          ("carrierCode", VStr "AA"); ("number", VStr "100");
          ("duration", VStr "PT6H30M") ].

Definition sample_offer (id total : string) : value :=
  VDict [ ("id", VStr id);
          ("price", VDict [ ("total", VStr total); ("currency", VStr "USD") ]);
          ("itineraries",
            VList [ VDict [ ("duration", VStr "PT6H30M");
                            ("segments", VList [ sample_segment ]) ] ]) ].

(** An offer without a price. *)
Definition sample_offer_no_price (id : string) : value :=
  VDict [ ("id", VStr id); ("itineraries", VList []) ].

(** * The rest of the two files

    What follows embeds the code around the pipeline: the constructor of
    [FlightAggregator], [display_flight] and [main] of flight_aggregator.py,
    and [search_flights], [_perform_search], [_display_results],
    [_format_flight] and [_display_error] of flight_gui.py. *)

(** ** Strings: [str.strip], [str.upper], [str.lower], [int] *)

(** White space as [str.strip()] sees it, on ASCII text. *)
Definition is_str_space (c : ascii) : bool :=
  let n := nat_of_ascii c in
  (n =? 32)%nat || ((9 <=? n)%nat && (n <=? 13)%nat) || ((28 <=? n)%nat && (n <=? 31)%nat).

Fixpoint lstrip (s : list ascii) : list ascii :=
  match s with
  | c :: s' => if is_str_space c then lstrip s' else s
  | [] => []
  end.

Definition str_strip (s : string) : string :=
  string_of_list_ascii (rev (lstrip (rev (lstrip (list_ascii_of_string s))))).

Definition to_upper (c : ascii) : ascii :=
  let n := nat_of_ascii c in
  if (97 <=? n)%nat && (n <=? 122)%nat then ascii_of_nat (n - 32) else c.

Definition str_upper (s : string) : string :=
  string_of_list_ascii (map to_upper (list_ascii_of_string s)).

Definition str_lower (s : string) : string :=
  string_of_list_ascii (map to_lower (list_ascii_of_string s)).

(** [c * n] for a one-character string [c]. *)
Definition str_repeat (c : ascii) (n : nat) : string :=
  string_of_list_ascii (replicate n c).

(** The line feed. *)
Definition NL : string := String (ascii_of_nat 10) EmptyString.

(** Digits with single underscores between them; the number, and how many
    digits it has.  [prev] is the character before [s], if any. *)
Fixpoint take_int_digits (acc : Z) (n : nat) (prev : option ascii) (s : list ascii)
    : option (Z * nat) :=
  match s with
  | [] =>
      match prev with
      | Some p => if is_digit p then Some (acc, n) else None
      | None => None
      end
  | c :: s' =>
      if is_digit c then
        take_int_digits (10 * acc + digit_value c)%Z (S n) (Some c) s'
      else if Ascii.eqb c "_" then
        match prev with
        | Some p => if is_digit p then take_int_digits acc n (Some c) s' else None
        | None => None
        end
      else None
  end.

(** Longest integer literal [int] converts. *)
Definition int_max_str_digits : nat := 4300.

(** [int(s)] for a string, in base ten. *)
Definition py_int (s : string) : result Z :=
  let '(neg, body) := take_sign (strip (list_ascii_of_string s)) in
  match take_int_digits 0 0 None body with
  | Some (z, n) =>
      if (n <=? int_max_str_digits)%nat then Ok (if neg then - z else z)%Z
      else Raise ValueError
  | None => Raise ValueError
  end.

(** ** FlightAggregator.__init__ *)

Record credentials : Type := { client_id : string; client_secret : string }.

(** The message of the [ValueError] the constructor raises. *)
Definition credentials_message : string :=
  "API credentials not found. Please set AMADEUS_API_KEY and AMADEUS_API_SECRET in .env file".

(** [api_key] and [api_secret] are what [os.getenv] returned. *)
Definition aggregator_init (api_key api_secret : option string) : result credentials :=
  if negb (truthy (option_str api_key)) || negb (truthy (option_str api_secret))
  then Raise ValueError
  else
    match api_key, api_secret with
    | Some k, Some s => Ok {| client_id := k; client_secret := s |}
    | _, _ => Raise ValueError
    end.

(** ** Programs with a state and exceptions

    A program runs from a state to a state and either returns or raises;
    the state reached when it raises is kept.  The state is the text
    written to the terminal, or the widgets of the window. *)

Definition prog (St A : Type) : Type := St -> St * result A.

Definition prog_ret {St A : Type} (a : A) : prog St A := fun s => (s, Ok a).

Definition prog_bind {St A B : Type} (m : prog St A) (k : A -> prog St B) : prog St B :=
  fun s =>
    match m s with
    | (s', Ok a) => k a s'
    | (s', Raise e) => (s', Raise e)
    end.

Definition prog_lift {St A : Type} (r : result A) : prog St A := fun s => (s, r).

Notation "'let*' x ':=' m 'in' k" := (prog_bind m (fun x => k))
  (at level 10, x name, m at level 100, k at level 200).

(** Runs [body] on the elements of [l], numbered from [i] on, as a [for]
    loop over [enumerate(l, i)] does. *)
Fixpoint for_enumerate {St A : Type} (i : nat) (l : list A) (body : nat -> A -> prog St unit)
    : prog St unit :=
  match l with
  | [] => prog_ret tt
  | x :: xs =>
      let* _ := body i x in
      for_enumerate (S i) xs body
  end.

(** [v[k1][k2]] *)
Definition getitem2 (v : value) (k1 k2 : string) : result value :=
  do inner <- py_getitem v k1;
  py_getitem inner k2.

(** ** The terminal *)

(** [print(s)]: the text and a line feed. *)
Definition print (s : string) : prog (list string) unit :=
  fun out => ((out ++ [s +:+ NL])%list, Ok tt).

(** [input(prompt)] answered with [answer]: the prompt is written. *)
Definition input (prompt answer : string) : prog (list string) string :=
  fun out => ((out ++ [prompt])%list, Ok answer).

(** The formatting of a value inside an f-string, [str(v)], is a parameter
    of what follows, and so is the text [str(e)] of an exception raised by
    the interpreter. *)

Section Terminal.
Variable py_str : value -> string.
Variable exn_text : pyerr -> string.

(** ** FlightAggregator.display_flight *)

(** One round of the inner loop; [j] counts the segments from 0. *)
Definition display_segment (j : nat) (segment : value) : prog (list string) unit :=
  let* _ := print ("    Segment " +:+ pretty (j + 1)%nat +:+ ":") in
  let* carrier := prog_lift (py_getitem segment "carrier") in
  let* flight_number := prog_lift (py_getitem segment "flight_number") in
  let* _ := print ("      " +:+ py_str carrier +:+ py_str flight_number) in
  let* dep_airport := prog_lift (getitem2 segment "departure" "airport") in
  let* arr_airport := prog_lift (getitem2 segment "arrival" "airport") in
  let* _ := print ("      " +:+ py_str dep_airport +:+ " → " +:+ py_str arr_airport) in
  let* dep_time := prog_lift (getitem2 segment "departure" "time") in
  let* _ := print ("      Depart: " +:+ py_str dep_time) in
  let* arr_time := prog_lift (getitem2 segment "arrival" "time") in
  let* _ := print ("      Arrive: " +:+ py_str arr_time) in
  let* duration := prog_lift (py_getitem segment "duration") in
  print ("      Duration: " +:+ py_str duration).

(** One round of the outer loop; [i] counts the itineraries from 0. *)
Definition display_itinerary (i : nat) (itinerary : value) : prog (list string) unit :=
  let* duration := prog_lift (py_getitem itinerary "duration") in
  let* _ := print (NL +:+ "  " +:+ (if (i =? 0)%nat then "Outbound" else "Return")
                   +:+ " Journey (Duration: " +:+ py_str duration +:+ ")") in
  let* segs := prog_lift (py_getitem itinerary "segments") in
  let* segments := prog_lift (py_iter segs) in
  for_enumerate 0 segments display_segment.

Definition display_flight (flight : value) (index : option Z) : prog (list string) unit :=
  let prefix :=
    match index with
    | Some i => pretty i +:+ ". "
    | None => ""
    end in
  let* id := prog_lift (py_getitem flight "id") in
  let* _ := print (NL +:+ prefix +:+ "Flight " +:+ py_str id) in
  let* total := prog_lift (getitem2 flight "price" "total") in
  let* currency := prog_lift (getitem2 flight "price" "currency") in
  let* _ := print ("Price: " +:+ py_str total +:+ " " +:+ py_str currency) in
  let* its := prog_lift (py_getitem flight "itineraries") in
  let* itineraries := prog_lift (py_iter its) in
  for_enumerate 0 itineraries display_itinerary.

(** ** main of flight_aggregator.py *)

(** The answers typed at the eight prompts. *)
Record cli_inputs : Type := {
  in_origin : string;
  in_destination : string;
  in_departure_date : string;
  in_return_date : string;
  in_adults : string;
  in_non_stop : string;
  in_max_results : string;
  in_currency : string
}.

Definition nonempty (s : string) : bool := truthy (VStr s).

(** The prompts of [main] and what it makes of the answers. *)
Definition read_search_args (i : cli_inputs) : prog (list string) search_args :=
  let* o := input (NL +:+ "Origin airport code (e.g., NYC, JFK): ") (in_origin i) in
  let origin := str_upper (str_strip o) in
  let* d := input "Destination airport code (e.g., LAX, LHR): " (in_destination i) in
  let destination := str_upper (str_strip d) in
  let* dd := input "Departure date (YYYY-MM-DD): " (in_departure_date i) in
  let departure_date := str_strip dd in
  let* rd := input "Return date (YYYY-MM-DD, or press Enter for one-way): "
               (in_return_date i) in
  let return_date_input := str_strip rd in
  let return_date := if nonempty return_date_input then Some return_date_input else None in
  let* ad := input "Number of adult passengers (default: 1): " (in_adults i) in
  let adults_input := str_strip ad in
  let* adults := prog_lift (if nonempty adults_input then py_int adults_input else Ok 1%Z) in
  let* ns := input "Non-stop flights only? (y/n, default: n): " (in_non_stop i) in
  let non_stop_input := str_lower (str_strip ns) in
  let non_stop := String.eqb non_stop_input "y" in
  let* mr := input "Maximum number of results (default: 10): " (in_max_results i) in
  let max_results_input := str_strip mr in
  let* max_results :=
    prog_lift (if nonempty max_results_input then py_int max_results_input else Ok 10%Z) in
  let* cu := input "Currency code (default: USD): " (in_currency i) in
  let currency_input := str_upper (str_strip cu) in
  let currency := if nonempty currency_input then currency_input else "USD" in
  prog_ret {| origin := origin; destination := destination;
              departure_date := departure_date; adults := adults;
              return_date := return_date; max_results := max_results;
              currency := currency; non_stop := non_stop |}.

(** The body of the [try] block after the constructor.  The lines that
    [search_flights] and [compare_flights] print are not part of the text. *)
Definition main_body (amadeus : gmap string value -> api_outcome) (i : cli_inputs)
    : prog (list string) unit :=
  let* _ := print (str_repeat "=" 50) in
  let* _ := print "Flight Aggregator - Search & Compare Flights" in
  let* _ := print (str_repeat "=" 50) in
  let* args := read_search_args i in
  let* _ := print (NL +:+ "Searching for flights from " +:+ origin args +:+ " to "
                   +:+ destination args +:+ "...") in
  let* flights := prog_lift (compare_flights amadeus args) in
  match flights with
  | _ :: _ =>
      let* _ := print (NL +:+ "Found " +:+ pretty (length flights)
                       +:+ " flights (sorted by price):" +:+ NL) in
      let* _ := print (str_repeat "=" 50) in
      for_enumerate 1 flights
        (fun n flight =>
           let* _ := display_flight flight (Some (Z.of_nat n)) in
           print (str_repeat "-" 50))
  | [] => print "No flights found. Please check your search parameters."
  end.

(** [main]: the [try] block and its handlers for [ValueError] and for
    [Exception]. *)
Definition main (api_key api_secret : option string)
    (amadeus : gmap string value -> api_outcome) (i : cli_inputs)
    : prog (list string) unit :=
  fun out =>
    match aggregator_init api_key api_secret with
    | Raise _ => print ("Invalid input: " +:+ credentials_message) out
    | Ok _ =>
        match main_body amadeus i out with
        | (out', Ok _) => (out', Ok tt)
        | (out', Raise ValueError) => print ("Invalid input: " +:+ exn_text ValueError) out'
        | (out', Raise e) => print ("Error: " +:+ exn_text e) out'
        end
    end.

End Terminal.

(** ** FlightSearchGUI *)

Module Gui.

Inductive button_state : Set := normal | disabled.

(** What the user has entered in the search form. *)
Record form : Type := {
  origin_entry : string;
  destination_entry : string;
  departure_cal : date;
  return_enabled : bool;
  return_cal : date;
  adults_spinbox : string;
  max_results_spinbox : string;
  currency_combo : string;
  non_stop_var : bool
}.

(** The window: the form, the widgets the code writes to, and the warning
    boxes shown so far.  [results_text] lists the inserted texts with their
    tags, from the last [delete] on. *)
Record window : Type := {
  entries : form;
  search_button : button_state;
  status_label : string;
  results_text : list (string * option string);
  warnings : list (string * string)
}.

Definition config_button (b : button_state) : prog window unit :=
  fun w =>
    ({| entries := entries w; search_button := b; status_label := status_label w;
        results_text := results_text w; warnings := warnings w |}, Ok tt).

Definition config_status (text : string) : prog window unit :=
  fun w =>
    ({| entries := entries w; search_button := search_button w; status_label := text;
        results_text := results_text w; warnings := warnings w |}, Ok tt).

(** [results_text.delete(1.0, tk.END)] *)
Definition delete_results : prog window unit :=
  fun w =>
    ({| entries := entries w; search_button := search_button w;
        status_label := status_label w; results_text := []; warnings := warnings w |},
     Ok tt).

(** [results_text.insert(tk.END, text, tag)] *)
Definition insert_results (text : string) (tag : option string) : prog window unit :=
  fun w =>
    ({| entries := entries w; search_button := search_button w;
        status_label := status_label w;
        results_text := (results_text w ++ [(text, tag)])%list;
        warnings := warnings w |}, Ok tt).

Definition showwarning (title message : string) : prog window unit :=
  fun w =>
    ({| entries := entries w; search_button := search_button w;
        status_label := status_label w; results_text := results_text w;
        warnings := (warnings w ++ [(title, message)])%list |}, Ok tt).

(** [search_flights]: returns whether the search thread was started. *)
Definition search_flights : prog window bool :=
  fun w =>
    let origin := str_upper (str_strip (origin_entry (entries w))) in
    let destination := str_upper (str_strip (destination_entry (entries w))) in
    if negb (nonempty origin) || negb (nonempty destination) then
      (let* _ := showwarning "Input Error" "Please fill in Origin and Destination" in
       prog_ret false) w
    else if negb (String.length origin =? 3)%nat || negb (String.length destination =? 3)%nat
    then
      (let* _ := showwarning "Input Error"
                   "Airport codes must be 3 letters (e.g., JFK, LAX)" in
       prog_ret false) w
    else
      (let* _ := config_button disabled in
       let* _ := config_status "Searching flights..." in
       let* _ := delete_results in
       let* _ := insert_results ("🔍 Searching for flights..." +:+ NL +:+ NL) None in
       prog_ret true) w.

Section Formatting.
Variable py_str : value -> string.
Variable exn_text : pyerr -> string.

Definition _format_segment (j : nat) (segment : value) : prog window unit :=
  let* _ := insert_results ("  ✈️  Segment " +:+ pretty (j + 1)%nat +:+ ": ") None in
  let* carrier := prog_lift (py_getitem segment "carrier") in
  let* flight_number := prog_lift (py_getitem segment "flight_number") in
  let* _ := insert_results (py_str carrier +:+ py_str flight_number +:+ NL) None in
  let* dep_airport := prog_lift (getitem2 segment "departure" "airport") in
  let* arr_airport := prog_lift (getitem2 segment "arrival" "airport") in
  let* _ := insert_results ("      " +:+ py_str dep_airport +:+ " → "
                            +:+ py_str arr_airport +:+ NL) None in
  let* dep_time := prog_lift (getitem2 segment "departure" "time") in
  let* _ := insert_results ("      Depart: " +:+ py_str dep_time +:+ NL) None in
  let* arr_time := prog_lift (getitem2 segment "arrival" "time") in
  let* _ := insert_results ("      Arrive: " +:+ py_str arr_time +:+ NL) None in
  let* duration := prog_lift (py_getitem segment "duration") in
  insert_results ("      Duration: " +:+ py_str duration +:+ NL) None.

Definition _format_itinerary (i : nat) (itinerary : value) : prog window unit :=
  let trip_type := if (i =? 0)%nat then "🛫 Outbound" else "🛬 Return" in
  let* duration := prog_lift (py_getitem itinerary "duration") in
  let* _ := insert_results (trip_type +:+ " Journey (Duration: " +:+ py_str duration
                            +:+ ")" +:+ NL) None in
  let* segs := prog_lift (py_getitem itinerary "segments") in
  let* segments := prog_lift (py_iter segs) in
  let* _ := for_enumerate 0 segments _format_segment in
  insert_results NL None.

Definition _format_flight (flight : value) (index : nat) : prog window unit :=
  let* _ := insert_results ("Flight #" +:+ pretty index +:+ NL) (Some "bold") in
  let* total := prog_lift (getitem2 flight "price" "total") in
  let* currency := prog_lift (getitem2 flight "price" "currency") in
  let* _ := insert_results ("💰 Price: " +:+ py_str total +:+ " " +:+ py_str currency
                            +:+ NL +:+ NL) None in
  let* its := prog_lift (py_getitem flight "itineraries") in
  let* itineraries := prog_lift (py_iter its) in
  for_enumerate 0 itineraries _format_itinerary.

Definition _display_results (flights : list value) : prog window unit :=
  let* _ := delete_results in
  let* _ :=
    match flights with
    | [] =>
        let* _ := insert_results ("❌ No flights found." +:+ NL +:+ NL) None in
        let* _ := insert_results ("Possible reasons:" +:+ NL) None in
        let* _ := insert_results ("• Invalid airport codes" +:+ NL) None in
        let* _ := insert_results ("• No flights available for selected dates" +:+ NL) None in
        let* _ := insert_results ("• Date is in the past" +:+ NL) None in
        let* _ := insert_results ("• Non-stop filter is too restrictive" +:+ NL) None in
        config_status "No flights found"
    | _ :: _ =>
        let* _ := insert_results ("✅ Found " +:+ pretty (length flights)
                                  +:+ " flights (sorted by price)" +:+ NL) None in
        let* _ := insert_results (str_repeat "=" 80 +:+ NL +:+ NL) None in
        let* _ := for_enumerate 1 flights
                    (fun n flight =>
                       let* _ := _format_flight flight n in
                       insert_results (str_repeat "-" 80 +:+ NL +:+ NL) None) in
        config_status ("Found " +:+ pretty (length flights) +:+ " flights")
    end in
  config_button normal.

Definition _display_error (error_message : string) : prog window unit :=
  let* _ := delete_results in
  let* _ := insert_results ("❌ Error: " +:+ error_message +:+ NL) None in
  let* _ := config_status "Error occurred" in
  config_button normal.

(** The arguments [_perform_search] reads off the form. *)
Definition search_args_of_form (f : form) : result search_args :=
  let origin := str_upper (str_strip (origin_entry f)) in
  let destination := str_upper (str_strip (destination_entry f)) in
  let departure_date := strftime_ymd (departure_cal f) in
  let return_date := gui_return_date (return_enabled f) (return_cal f) in
  do adults <- py_int (adults_spinbox f);
  do max_results <- py_int (max_results_spinbox f);
  Ok {| origin := origin; destination := destination;
        departure_date := departure_date; adults := adults;
        return_date := return_date; max_results := max_results;
        currency := currency_combo f; non_stop := non_stop_var f |}.

(** [_perform_search], with the call it leaves to the main loop run at
    once: [_display_results] on the flights, or [_display_error] on the
    text of the exception caught. *)
Definition _perform_search (amadeus : gmap string value -> api_outcome)
    : prog window unit :=
  fun w =>
    match (do args <- search_args_of_form (entries w); compare_flights amadeus args) with
    | Ok flights => _display_results flights w
    | Raise e => _display_error (exn_text e) w
    end.

End Formatting.
End Gui.

(** ** Vocabulary for the rest of the two files *)

(** The shape of what the normaliser returns: all keys of the parsed
    offer, of its price, of every itinerary and of every segment. *)
Definition is_parsed_itinerary (it : value) : bool :=
  has_keys it ["duration"; "segments"]
  && match field it "segments" with
     | Some (VList segs) => forallb segment_keys_present segs
     | _ => false
     end.

Definition is_parsed_offer (p : value) : bool :=
  has_keys p ["id"; "price"; "itineraries"]
  && match field p "price" with
     | Some price => has_keys price ["total"; "currency"]
     | None => false
     end
  && match field p "itineraries" with
     | Some (VList its) => forallb is_parsed_itinerary its
     | _ => false
     end.

(** Segments of a parsed offer, over all its itineraries. *)
Definition segment_count (flight : value) : nat :=
  sum_list (map (fun it => length (items it "segments")) (items flight "itineraries")).

(** The exceptions the pipeline can raise. *)
Definition pipeline_error (e : pyerr) : bool :=
  match e with
  | AttributeError | TypeError | ValueError | OverflowError => true
  | KeyError => false
  end.

(** A number that is not zero, or [True]: truthy, and without [len]. *)
Definition truthy_unsized (v : value) : bool :=
  truthy v && negb (is_ok (py_len v)).

(** The sort key of a parsed offer as a number; only meant where
    [price_key] returns. *)
Definition price_rank (x : value) : Z :=
  match price_key x with
  | Ok f => float_rank f
  | Raise _ => 0%Z
  end.

(** [m] returns after writing [n] more texts to the terminal. *)
Definition writes (n : nat) (m : prog (list string) unit) : Prop :=
  forall out, exists lines, m out = ((out ++ lines)%list, Ok tt) /\ length lines = n.

(** The window after [chunks] were inserted into the results. *)
Definition with_results (chunks : list (string * option string)) (w : Gui.window)
    : Gui.window :=
  {| Gui.entries := Gui.entries w; Gui.search_button := Gui.search_button w;
     Gui.status_label := Gui.status_label w;
     Gui.results_text := (Gui.results_text w ++ chunks)%list;
     Gui.warnings := Gui.warnings w |}.

(** The eight prompts of [main], in the order in which it asks. *)
Definition cli_prompts : list string :=
  [ NL +:+ "Origin airport code (e.g., NYC, JFK): ";
    "Destination airport code (e.g., LAX, LHR): ";
    "Departure date (YYYY-MM-DD): ";
    "Return date (YYYY-MM-DD, or press Enter for one-way): ";
    "Number of adult passengers (default: 1): ";
    "Non-stop flights only? (y/n, default: n): ";
    "Maximum number of results (default: 10): ";
    "Currency code (default: USD): " ].


(** [m] returns and has done nothing but insert texts into the results. *)
Definition only_inserts (m : prog Gui.window unit) : Prop :=
  forall w, exists chunks, m w = (with_results chunks w, Ok tt).

(** The status line after a search that returned [flights]. *)
Definition found_status (flights : list value) : string :=
  match flights with
  | [] => "No flights found"
  | _ :: _ => "Found " +:+ pretty (length flights) +:+ " flights"
  end.

(** ** More sample data *)

Definition plain_str (v : value) : string :=
  match v with
  | VStr s => s
  | VInt z => pretty z
  | _ => "None"
  end.

Definition plain_exn (e : pyerr) : string :=
  match e with
  | ValueError => "invalid literal"
  | _ => "error"
  end.

Definition sample_inputs : cli_inputs :=
  {| in_origin := " jfk "; in_destination := "lax"; in_departure_date := "2026-03-01";
     in_return_date := ""; in_adults := ""; in_non_stop := "Y"; in_max_results := "";
     in_currency := "" |}.

(** The arguments [main] makes of [sample_inputs]. *)
Definition sample_cli_args : search_args :=
  {| origin := "JFK"; destination := "LAX"; departure_date := "2026-03-01";
     adults := 1; return_date := None; max_results := 10; currency := "USD";
     non_stop := true |}.

Definition sample_form : Gui.form :=
  {| Gui.origin_entry := "jfk"; Gui.destination_entry := " LAX ";
     Gui.departure_cal := {| year := 2026; month := 3; day := 1 |};
     Gui.return_enabled := false;
     Gui.return_cal := {| year := 2026; month := 3; day := 9 |};
     Gui.adults_spinbox := "1"; Gui.max_results_spinbox := "10";
     Gui.currency_combo := "USD"; Gui.non_stop_var := false |}.

Definition sample_window : Gui.window :=
  {| Gui.entries := sample_form; Gui.search_button := Gui.normal;
     Gui.status_label := "Ready"; Gui.results_text := []; Gui.warnings := [] |}.

(** * Properties *)

(** ** The error monad *)

Lemma bind_ok {A B : Type} (r : result A) (k : A -> result B) (a : A) :
  r = Ok a -> bind r k = k a.
Proof. by intros ->. Qed.

Lemma map_result_Forall2 {A B : Type} (f : A -> result B) (l : list A) (l' : list B) :
  map_result f l = Ok l' <-> Forall2 (fun x y => f x = Ok y) l l'.
Proof.
  revert l'. induction l as [|x xs IH]; intros l'; simpl.
  - split.
    + intros [= <-]. constructor.
    + intros H. by inversion H.
  - split.
    + destruct (f x) as [y|e] eqn:Hx; simpl; [|done].
      destruct (map_result f xs) as [ys|e] eqn:Hxs; simpl; [|done].
      intros [= <-]. constructor; [done|]. by apply IH.
    + intros H. inversion H as [|? y ? ys Hy Hys]; subst.
      rewrite Hy. simpl. apply IH in Hys. by rewrite Hys.
Qed.

Lemma map_result_total {A B : Type} (f : A -> result B) (g : A -> B) (l : list A) :
  Forall (fun x => f x = Ok (g x)) l -> map_result f l = Ok (map g l).
Proof.
  intros H. apply map_result_Forall2.
  induction H; simpl; by constructor.
Qed.

Lemma map_result_length {A B : Type} (f : A -> result B) (l : list A) (l' : list B) :
  map_result f l = Ok l' -> length l' = length l.
Proof.
  intros H. apply map_result_Forall2 in H. symmetry. by eapply Forall2_length.
Qed.

Lemma Forall2_In_l {A B : Type} (P : A -> B -> Prop) (l : list A) (l' : list B) (x : A) :
  Forall2 P l l' -> In x l -> exists y, In y l' /\ P x y.
Proof.
  induction 1 as [|a b l l' Hab _ IH]; simpl; [done|].
  intros [->|Hin].
  - exists b. by split; [left|].
  - destruct (IH Hin) as (y & Hy & Hxy). exists y. by split; [right|].
Qed.

(** One failing element makes the whole pass fail. *)
Lemma map_result_raises {A B : Type} (f : A -> result B) (l : list A) (x : A) :
  In x l -> is_ok (f x) = false -> exists e, map_result f l = Raise e.
Proof.
  induction l as [|y ys IH]; simpl; [done|].
  intros [->|Hin] Hx.
  - destruct (f x) as [?|e]; [done|]. by exists e.
  - destruct (f y) as [?|e]; simpl; [|by exists e].
    destruct (IH Hin Hx) as [e ->]. by exists e.
Qed.

(** The first failing element decides the exception. *)
Lemma map_result_raises_with {A B : Type} (f : A -> result B) (l : list A) (e0 : pyerr) :
  Forall (fun x => forall e, f x = Raise e -> e = e0) l ->
  forall e, map_result f l = Raise e -> e = e0.
Proof.
  induction 1 as [|y ys Hy _ IH]; simpl; [done|].
  intros e. destruct (f y) as [?|e1]; simpl.
  - destruct (map_result f ys) as [?|e2]; simpl; [done|].
    intros [= <-]. by apply IH.
  - intros [= <-]. by apply Hy.
Qed.

(** ** The normaliser on raw offers *)

Lemma py_get_dict (v : value) (k : string) (dflt : value) :
  is_dict v = true -> py_get v k dflt = Ok (default dflt (field v k)).
Proof. by destruct v. Qed.

Lemma get2_shaped (v : value) (k1 k2 : string) :
  is_dict v = true -> absent_or_dict v k1 = true ->
  get2 v k1 k2 = Ok (default VNone (field2 v k1 k2)).
Proof.
  intros Hv Hk. unfold get2. rewrite (py_get_dict _ _ _ Hv). simpl.
  unfold absent_or_dict in Hk. unfold field2.
  destruct (field v k1) as [[]|]; simpl in *; done.
Qed.

Lemma parse_segment_shaped (s : value) :
  is_raw_segment s = true -> parse_segment s = Ok (segment_record s).
Proof.
  unfold is_raw_segment. rewrite !andb_true_iff. intros [[[Hd Hdep] Harr] Hair].
  unfold parse_segment.
  rewrite !(get2_shaped _ _ _ Hd Hdep), !(get2_shaped _ _ _ Hd Harr),
    !(get2_shaped _ _ _ Hd Hair), !(py_get_dict _ _ _ Hd).
  reflexivity.
Qed.

Lemma iter_field_shaped (elem : value -> bool) (v : value) (k : string) :
  is_dict v = true -> absent_or_list elem v k = true ->
  (do x <- py_get v k (VList []); py_iter x) = Ok (items v k)
  /\ Forall (fun x => elem x = true) (items v k).
Proof.
  intros Hv Hk. rewrite (py_get_dict _ _ _ Hv). simpl.
  unfold absent_or_list in Hk. unfold items.
  destruct (field v k) as [[]|]; simpl in *; try done.
  split; [done|]. apply List.Forall_forall. by apply forallb_forall.
Qed.

Lemma parse_itinerary_shaped (it : value) :
  is_raw_itinerary it = true -> parse_itinerary it = Ok (itinerary_record it).
Proof.
  unfold is_raw_itinerary. rewrite andb_true_iff. intros [Hd Hsegs].
  destruct (iter_field_shaped _ _ _ Hd Hsegs) as [Hiter Hall].
  unfold parse_itinerary.
  destruct (py_get it "segments" (VList [])) as [segs|] eqn:Hget; simpl in *; [|done].
  rewrite Hiter. simpl.
  rewrite (map_result_total parse_segment segment_record).
  - simpl. by rewrite (py_get_dict _ _ _ Hd).
  - eapply Forall_impl; [exact Hall|]. intros s. apply parse_segment_shaped.
Qed.

Lemma parse_flight_offer_shaped (offer : value) :
  is_raw_offer offer = true -> parse_flight_offer offer = Ok (offer_record offer).
Proof.
  unfold is_raw_offer. rewrite !andb_true_iff. intros [[Hd Hprice] Hits].
  destruct (iter_field_shaped _ _ _ Hd Hits) as [Hiter Hall].
  unfold parse_flight_offer.
  rewrite (py_get_dict _ _ _ Hd), !(get2_shaped _ _ _ Hd Hprice). simpl.
  destruct (py_get offer "itineraries" (VList [])) as [its|] eqn:Hget; simpl in *; [|done].
  rewrite Hiter. simpl.
  rewrite (map_result_total parse_itinerary itinerary_record); [done|].
  eapply Forall_impl; [exact Hall|]. intros s. apply parse_itinerary_shaped.
Qed.

Lemma price_key_offer_record (offer : value) :
  price_key (offer_record offer) = py_float (raw_total offer).
Proof. reflexivity. Qed.

(** Outside that shape the normaliser can raise: a price that is present
    but is [None] has no [get]. *)
Lemma parse_flight_offer_price_none :
  parse_flight_offer (VDict [ ("id", VStr "1"); ("price", VNone) ]) = Raise AttributeError.
Proof. reflexivity. Qed.

(** ** Floats that are numbers are ordered like integers *)

Lemma float_lt_rank (f g : pyfloat) :
  is_nan f = false -> is_nan g = false ->
  float_lt f g = (float_rank f <? float_rank g)%Z.
Proof. unfold float_lt. by intros -> ->. Qed.

Lemma float_le_rank (f g : pyfloat) :
  is_nan f = false -> is_nan g = false ->
  float_le f g = (float_rank f <=? float_rank g)%Z.
Proof. unfold float_le. by intros -> ->. Qed.

Lemma float_le_number (f g : pyfloat) :
  float_le f g = true ->
  is_nan f = false /\ is_nan g = false /\ (float_rank f <= float_rank g)%Z.
Proof.
  unfold float_le. rewrite !andb_true_iff, !negb_true_iff, Z.leb_le. tauto.
Qed.

Lemma float_lt_number (f g : pyfloat) :
  float_lt f g = true ->
  is_nan f = false /\ is_nan g = false /\ (float_rank f < float_rank g)%Z.
Proof.
  unfold float_lt. rewrite !andb_true_iff, !negb_true_iff, Z.ltb_lt. tauto.
Qed.

Lemma float_eq_number (f g : pyfloat) :
  float_eq f g = true ->
  is_nan f = false /\ is_nan g = false /\ float_rank f = float_rank g.
Proof.
  unfold float_eq. rewrite !andb_true_iff, !negb_true_iff, Z.eqb_eq. tauto.
Qed.

(** ** The stable sort on keyed elements *)

Section StableSortFacts.
Context {A : Type}.
Implicit Types (x y : pyfloat * A) (l : list (pyfloat * A)).

Lemma insert_keyed_perm x l : Permutation (insert_keyed x l) (x :: l).
Proof.
  induction l as [|y ys IH]; simpl; [done|].
  destruct (float_lt (fst y) (fst x)); [|done].
  rewrite IH. apply perm_swap.
Qed.

Lemma sort_keyed_perm l : Permutation (sort_keyed l) l.
Proof.
  induction l as [|x xs IH]; simpl; [done|].
  rewrite insert_keyed_perm. by constructor.
Qed.

Lemma insert_keyed_sorted x l :
  keyed_number x -> Forall keyed_number l ->
  StronglySorted keyed_le l -> StronglySorted keyed_le (insert_keyed x l).
Proof.
  intros Hx Hl Hs. induction Hs as [|y ys Hys IH Hy]; simpl.
  - repeat constructor.
  - inversion Hl as [|? ? Hny Hnys]; subst.
    rewrite (float_lt_rank _ _ Hny Hx).
    destruct (Z.ltb_spec (float_rank (fst y)) (float_rank (fst x))) as [Hlt|Hge].
    + constructor; [by apply IH|].
      rewrite insert_keyed_perm. constructor; [|done].
      unfold keyed_le. lia.
    + constructor; [by constructor|].
      constructor; [done|].
      eapply Forall_impl; [exact Hy|]. unfold keyed_le. intros z Hz. simpl in Hz. lia.
Qed.

Lemma sort_keyed_sorted l :
  Forall keyed_number l -> StronglySorted keyed_le (sort_keyed l).
Proof.
  induction 1 as [|x xs Hx Hxs IH]; simpl; [constructor|].
  apply insert_keyed_sorted; [done| |done].
  by rewrite sort_keyed_perm.
Qed.

(** Elements of equal key never pass one another. *)
Lemma insert_keyed_filter (k : pyfloat) x l :
  List.filter (fun p => float_eq k (fst p)) (insert_keyed x l)
  = List.filter (fun p => float_eq k (fst p)) (x :: l).
Proof.
  induction l as [|y ys IH]; [done|].
  cbn [insert_keyed].
  destruct (float_lt (fst y) (fst x)) eqn:Hlt; [|done].
  cbn [List.filter] in *. rewrite IH.
  destruct (float_eq k (fst x)) eqn:Hkx; [|done].
  destruct (float_eq k (fst y)) eqn:Hky; [|done].
  apply float_eq_number in Hkx, Hky. apply float_lt_number in Hlt. lia.
Qed.

Lemma sort_keyed_stable (k : pyfloat) l :
  List.filter (fun p => float_eq k (fst p)) (sort_keyed l)
  = List.filter (fun p => float_eq k (fst p)) l.
Proof.
  induction l as [|x xs IH]; [done|].
  cbn [sort_keyed]. rewrite insert_keyed_filter. cbn [List.filter]. by rewrite IH.
Qed.

(** An ascending list is left as it is. *)
Lemma sort_keyed_ascending l :
  Forall keyed_number l -> Sorted keyed_le l -> sort_keyed l = l.
Proof.
  intros Hn Hs. induction Hs as [|x xs Hxs IH Hhd]; [done|].
  inversion Hn as [|? ? Hx Hnxs]; subst.
  cbn [sort_keyed]. rewrite (IH Hnxs).
  destruct Hhd as [|y ys Hxy]; [done|].
  inversion Hnxs as [|? ? Hy _]; subst.
  cbn [insert_keyed]. rewrite (float_lt_rank _ _ Hy Hx).
  unfold keyed_le in Hxy.
  destruct (Z.ltb_spec (float_rank (fst y)) (float_rank (fst x))); [lia|done].
Qed.

Lemma insert_keyed_last x l :
  Forall (fun y => float_lt (fst y) (fst x) = true) l -> insert_keyed x l = (l ++ [x])%list.
Proof.
  induction 1 as [|y ys Hy _ IH]; [done|].
  cbn [insert_keyed]. rewrite Hy, IH. done.
Qed.

(** A strictly descending list is reversed. *)
Lemma sort_keyed_descending l :
  Sorted (fun x y => float_lt (fst y) (fst x) = true) l -> sort_keyed l = rev l.
Proof.
  intros Hs. apply Sorted_StronglySorted in Hs.
  - induction Hs as [|x xs Hxs IH Hall]; [done|].
    cbn [sort_keyed]. rewrite IH. simpl. apply insert_keyed_last.
    apply List.Forall_forall. intros y Hy. apply List.in_rev in Hy.
    by apply (proj1 (List.Forall_forall _ _) Hall).
  - intros x y z Hxy Hyz. apply float_lt_number in Hxy, Hyz.
    rewrite float_lt_rank by tauto. apply Z.ltb_lt. lia.
Qed.

End StableSortFacts.

(** ** [list.sort] with a key *)

Section ListSortFacts.
Context {A : Type} (key : A -> result pyfloat).
Implicit Types (l : list A) (d : list (pyfloat * A)).

Lemma zip_keys_decorated l (keys : list pyfloat) :
  Forall2 (fun x k => key x = Ok k) l keys ->
  Forall (decorated key) (zip keys l) /\ map snd (zip keys l) = l.
Proof.
  induction 1 as [|x k xs ks Hk _ [IH1 IH2]]; simpl; [done|].
  split; [by constructor|]. by rewrite IH2.
Qed.

Lemma numeric_keys l :
  Forall (fun x => numeric_key key x = true) l ->
  exists keys, map_result key l = Ok keys
    /\ Forall (decorated key) (zip keys l)
    /\ Forall keyed_number (zip keys l)
    /\ map snd (zip keys l) = l.
Proof.
  induction 1 as [|x xs Hx _ (ks & Hks & Hd & Hn & Hsnd)].
  - by exists [].
  - unfold numeric_key in Hx. destruct (key x) as [f|] eqn:Hf; [|done].
    exists (f :: ks). simpl. rewrite Hf, Hks. simpl. repeat split.
    + by constructor.
    + constructor; [|done]. by apply negb_true_iff in Hx.
    + by rewrite Hsnd.
Qed.

Lemma decorated_le_by d :
  Forall (decorated key) d -> Forall keyed_number d ->
  StronglySorted keyed_le d -> StronglySorted (le_by key) (map snd d).
Proof.
  intros Hd Hn Hs. induction Hs as [|p ps Hps IH Hall]; simpl; [constructor|].
  inversion Hd as [|? ? Hp Hdps]; inversion Hn as [|? ? Hnp Hnps]; subst.
  constructor; [by apply IH|].
  apply List.Forall_forall. intros y Hy. apply List.in_map_iff in Hy as (q & <- & Hq).
  exists (fst p), (fst q). split; [done|]. split.
  - by apply (proj1 (List.Forall_forall _ _) Hdps).
  - rewrite float_le_rank; [|done|by apply (proj1 (List.Forall_forall _ _) Hnps)].
    apply Z.leb_le. by apply (proj1 (List.Forall_forall _ _) Hall).
Qed.

Lemma decorated_filter (k : pyfloat) d :
  Forall (decorated key) d ->
  List.filter (key_is key k) (map snd d)
  = map snd (List.filter (fun p => float_eq k (fst p)) d).
Proof.
  induction 1 as [|p ps Hp _ IH]; [done|].
  cbn [map List.filter]. unfold key_is at 1. rewrite Hp.
  destruct (float_eq k (fst p)); cbn [map]; by rewrite IH.
Qed.

Lemma le_by_keyed d :
  Forall (decorated key) d -> Sorted (le_by key) (map snd d) -> Sorted keyed_le d.
Proof.
  induction 1 as [|p ps Hp Hps IH]; simpl; [constructor|].
  intros Hs. inversion Hs as [|? ? Hs' Hhd]; subst.
  constructor; [by apply IH|].
  destruct Hps as [|q qs Hq _]; [constructor|].
  inversion Hhd as [|? ? (f & g & Hf & Hg & Hle)]; subst.
  constructor. unfold keyed_le. unfold decorated in Hp, Hq.
  rewrite Hp in Hf. rewrite Hq in Hg. injection Hf as <-. injection Hg as <-.
  by apply float_le_number in Hle as (_ & _ & Hle).
Qed.

Lemma gt_by_keyed d :
  Forall (decorated key) d ->
  Sorted (fun x y => lt_by key y x) (map snd d) ->
  Sorted (fun p q : pyfloat * A => float_lt (fst q) (fst p) = true) d.
Proof.
  induction 1 as [|p ps Hp Hps IH]; simpl; [constructor|].
  intros Hs. inversion Hs as [|? ? Hs' Hhd]; subst.
  constructor; [by apply IH|].
  destruct Hps as [|q qs Hq _]; [constructor|].
  inversion Hhd as [|? ? (f & g & Hf & Hg & Hlt)]; subst.
  constructor. unfold decorated in Hp, Hq.
  rewrite Hp in Hg. rewrite Hq in Hf. injection Hf as <-. by injection Hg as <-.
Qed.

(** When every key is a number, the result is the input rearranged,
    ascending by key, with elements of equal key in their input order. *)
Lemma list_sort_numeric l :
  Forall (fun x => numeric_key key x = true) l ->
  exists out, list_sort key l = Ok out
    /\ Permutation out l
    /\ StronglySorted (le_by key) out
    /\ forall k, List.filter (key_is key k) out = List.filter (key_is key k) l.
Proof.
  intros Hl. destruct (numeric_keys l Hl) as (keys & Hkeys & Hd & Hn & Hsnd).
  exists (map snd (sort_keyed (zip keys l))).
  unfold list_sort. rewrite Hkeys. simpl. split; [done|].
  assert (Hd' : Forall (decorated key) (sort_keyed (zip keys l)))
    by (by rewrite sort_keyed_perm).
  assert (Hn' : Forall keyed_number (sort_keyed (zip keys l)))
    by (by rewrite sort_keyed_perm).
  repeat split.
  - rewrite <- Hsnd at 2. apply Permutation_map, sort_keyed_perm.
  - apply decorated_le_by; [done..|]. by apply sort_keyed_sorted.
  - intros k. rewrite decorated_filter by done.
    rewrite sort_keyed_stable, <- decorated_filter by done. by rewrite Hsnd.
Qed.

Lemma list_sort_ascending l :
  Forall (fun x => numeric_key key x = true) l ->
  Sorted (le_by key) l -> list_sort key l = Ok l.
Proof.
  intros Hl Hs. destruct (numeric_keys l Hl) as (keys & Hkeys & Hd & Hn & Hsnd).
  unfold list_sort. rewrite Hkeys. simpl.
  rewrite sort_keyed_ascending; [by rewrite Hsnd|done|].
  apply le_by_keyed; [done|]. by rewrite Hsnd.
Qed.

Lemma list_sort_descending l :
  Forall (fun x => numeric_key key x = true) l ->
  Sorted (fun x y => lt_by key y x) l -> list_sort key l = Ok (rev l).
Proof.
  intros Hl Hs. destruct (numeric_keys l Hl) as (keys & Hkeys & Hd & Hn & Hsnd).
  unfold list_sort. rewrite Hkeys. simpl.
  rewrite sort_keyed_descending.
  - by rewrite List.map_rev, Hsnd.
  - apply gt_by_keyed; [done|]. by rewrite Hsnd.
Qed.

(** Whatever the keys are, a sort that returns has rearranged its input. *)
Lemma list_sort_perm l (out : list A) :
  list_sort key l = Ok out -> Permutation out l.
Proof.
  unfold list_sort. destruct (map_result key l) as [keys|] eqn:Hkeys; simpl; [|done].
  intros [= <-]. apply map_result_Forall2 in Hkeys.
  destruct (zip_keys_decorated l keys Hkeys) as [_ Hsnd].
  rewrite <- Hsnd at 2. apply Permutation_map, sort_keyed_perm.
Qed.

Lemma list_sort_returns l :
  Forall (fun x => is_ok (key x) = true) l -> exists out, list_sort key l = Ok out.
Proof.
  intros Hl. unfold list_sort.
  assert (exists keys, map_result key l = Ok keys) as [keys ->]; [|by eexists].
  induction Hl as [|x xs Hx _ [ks IH]]; [by exists []|].
  simpl. destruct (key x) as [f|]; [|done]. rewrite IH. by eexists.
Qed.

Lemma list_sort_raises l (x : A) :
  In x l -> is_ok (key x) = false -> exists e, list_sort key l = Raise e.
Proof.
  intros Hin Hx. destruct (map_result_raises key l x Hin Hx) as [e He].
  exists e. unfold list_sort. by rewrite He.
Qed.

End ListSortFacts.

(** ** The pipeline *)

(** On a response that carries a list, the pipeline is normalisation
    followed by the sort. *)
Lemma compare_flights_on_list amadeus a (raw_offers : list value) :
  amadeus (request_params a) = ApiResponse (VList raw_offers) ->
  compare_flights amadeus a =
    (do parsed_offers <- map_result parse_flight_offer raw_offers;
     list_sort price_key parsed_offers).
Proof.
  intros Hresp. unfold compare_flights, search_flights. rewrite Hresp.
  by destruct raw_offers.
Qed.

Lemma compare_flights_shaped amadeus a (raw_offers : list value) :
  amadeus (request_params a) = ApiResponse (VList raw_offers) ->
  Forall (fun o => is_raw_offer o = true) raw_offers ->
  map_result parse_flight_offer raw_offers = Ok (map offer_record raw_offers)
  /\ compare_flights amadeus a = list_sort price_key (map offer_record raw_offers).
Proof.
  intros Hresp Hshape.
  assert (Hparsed : map_result parse_flight_offer raw_offers
                    = Ok (map offer_record raw_offers)).
  { apply map_result_total. eapply Forall_impl; [exact Hshape|].
    intros o. apply parse_flight_offer_shaped. }
  split; [done|].
  rewrite (compare_flights_on_list _ _ _ Hresp), Hparsed. done.
Qed.

(** A parsed offer carries the total the normaliser read. *)
Lemma parse_flight_offer_price (offer parsed : value) :
  parse_flight_offer offer = Ok parsed ->
  price_key parsed = py_float (raw_total offer).
Proof.
  unfold parse_flight_offer, raw_total, field2.
  destruct offer as [| | | | | |d]; try done.
  cbn [py_get bind field].
  unfold get2. cbn [py_get bind].
  destruct (dict_get d "price") as [[| | | | | |pd]|]; try done; cbn [default py_get bind field].
  - destruct (py_iter _) as [its|]; cbn [bind]; [|done].
    destruct (map_result parse_itinerary its); cbn [bind]; [|done].
    by intros [= <-].
  - destruct (py_iter _) as [its|]; cbn [bind]; [|done].
    destruct (map_result parse_itinerary its); cbn [bind]; [|done].
    by intros [= <-].
Qed.

Lemma float_of_string_raises (s : string) (e : pyerr) :
  float_of_string s = Raise e -> e = ValueError.
Proof.
  unfold float_of_string.
  destruct (drop_underscores _ _); [|by intros [= <-]].
  destruct (parse_decimal _); [done|].
  destruct (parse_inf_or_nan _); [done|]. by intros [= <-].
Qed.

(** * Main results *)

(** C1, as stated: a search that finds nothing and a search that fails
    with a [ResponseError] can be told apart from what [compare_flights]
    returns.  They cannot: at these arguments both calls return the same
    empty list. *)
Lemma compare_flights_failure_looks_empty :
  ~ (compare_flights (client_returning (VList [])) sample_args = Ok []
     /\ compare_flights (client_returning (VList [])) sample_args
        <> compare_flights failing_client sample_args).
Proof. intros [_ Hne]. by apply Hne. Qed.

(** C1, amended: [compare_flights] returns the empty list when the search
    reports no offers ([response.data] is empty or [None]), and it returns
    the same empty list when the search raises [ResponseError]. *)
Theorem compare_flights_no_offers amadeus a :
  amadeus (request_params a) = ApiResponseError
  \/ (exists data, amadeus (request_params a) = ApiResponse data /\ truthy data = false) ->
  compare_flights amadeus a = Ok [].
Proof.
  unfold compare_flights, search_flights.
  intros [->|(data & -> & Hdata)]; [done|].
  rewrite Hdata. simpl. by rewrite Hdata.
Qed.

Lemma compare_flights_no_offers_witness :
  compare_flights failing_client sample_args = Ok []
  /\ compare_flights (client_returning VNone) sample_args = Ok [].
Proof.
  split.
  - apply (compare_flights_no_offers failing_client sample_args). by left.
  - apply (compare_flights_no_offers (client_returning VNone) sample_args).
    right. exists VNone. split; reflexivity.
Defined.

(** C2: when the search returns a list of raw offers and the price total of
    one of them is not accepted by [float], [compare_flights] raises: no
    list is returned, so no offer is ranked or left out.  When moreover all
    offers are raw offers whose totals are strings, the exception is the
    [ValueError] of [float]; the string N/A is such a total. *)
Theorem compare_flights_unparseable_price amadeus a (raw_offers : list value) (offer : value) :
  amadeus (request_params a) = ApiResponse (VList raw_offers) ->
  In offer raw_offers ->
  float_parses (raw_total offer) = false ->
  (exists e, compare_flights amadeus a = Raise e)
  /\ (Forall (fun o => is_raw_offer o = true /\ exists s, raw_total o = VStr s) raw_offers ->
      compare_flights amadeus a = Raise ValueError)
  /\ float_parses (VStr "N/A") = false.
Proof.
  intros Hresp Hin Hbad.
  assert (Hraise : exists e, compare_flights amadeus a = Raise e).
  { rewrite (compare_flights_on_list _ _ _ Hresp).
    destruct (map_result parse_flight_offer raw_offers) as [parsed|e] eqn:Hparsed;
      simpl; [|by exists e].
    apply map_result_Forall2 in Hparsed.
    destruct (Forall2_In_l _ _ _ _ Hparsed Hin) as (p & Hp & Hoffer).
    apply (list_sort_raises price_key parsed p Hp).
    by rewrite (parse_flight_offer_price _ _ Hoffer). }
  split; [done|]. split; [|reflexivity].
  intros Hall. destruct Hraise as [e He]. rewrite He. f_equal.
  assert (Hshape : Forall (fun o => is_raw_offer o = true) raw_offers)
    by (eapply Forall_impl; [exact Hall|]; by intros o [? _]).
  destruct (compare_flights_shaped _ _ _ Hresp Hshape) as [_ Hcmp].
  rewrite Hcmp in He. unfold list_sort in He.
  destruct (map_result price_key (map offer_record raw_offers)) eqn:Hkeys; [done|].
  injection He as ->.
  eapply map_result_raises_with; [|exact Hkeys].
  apply List.Forall_forall. intros p Hp e'.
  apply List.in_map_iff in Hp as (o & <- & Ho).
  destruct (proj1 (List.Forall_forall _ _) Hall o Ho) as [_ [s Hs]].
  rewrite price_key_offer_record, Hs. apply float_of_string_raises.
Qed.

Lemma compare_flights_unparseable_price_witness :
  let raw_offers := [ sample_offer "1" "250.00"; sample_offer "2" "N/A" ] in
  In (sample_offer "2" "N/A") raw_offers
  /\ compare_flights (client_returning (VList raw_offers)) sample_args = Raise ValueError.
Proof.
  intros raw_offers.
  assert (Hin : In (sample_offer "2" "N/A") raw_offers) by (right; left; reflexivity).
  split; [exact Hin|].
  apply (compare_flights_unparseable_price (client_returning (VList raw_offers))
           sample_args raw_offers (sample_offer "2" "N/A") eq_refl Hin eq_refl).
  repeat constructor; eexists; reflexivity.
Defined.

(** ** The normaliser *)

Lemma shaped_itineraries (offer : value) :
  is_raw_offer offer = true ->
  Forall (fun it => is_raw_itinerary it = true) (items offer "itineraries").
Proof.
  unfold is_raw_offer. rewrite !andb_true_iff. intros [[Hd _] Hits].
  by destruct (iter_field_shaped _ _ _ Hd Hits).
Qed.

Lemma shaped_segments (it : value) :
  is_raw_itinerary it = true ->
  Forall (fun s => is_raw_segment s = true) (items it "segments").
Proof.
  unfold is_raw_itinerary. rewrite andb_true_iff. intros [Hd Hsegs].
  by destruct (iter_field_shaped _ _ _ Hd Hsegs).
Qed.

Lemma Forall2_map_of {A B : Type} (P : A -> Prop) (Q : A -> B -> Prop) (g : A -> B)
    (l : list A) :
  (forall x, P x -> Q x (g x)) -> Forall P l -> Forall2 Q l (map g l).
Proof. intros HPQ. induction 1; simpl; constructor; auto. Qed.

(** C3: on every raw offer (a mapping in which the nested mappings and
    sequences are absent or of that kind) [parse_flight_offer] returns a
    parsed offer and does not raise; the parsed offer holds, for each field,
    the value found in the raw offer, and [None] where the field is absent. *)
Theorem parse_flight_offer_never_raises (offer : value) :
  is_raw_offer offer = true ->
  exists parsed,
    parse_flight_offer offer = Ok parsed
    /\ parsed = offer_record offer
    /\ field parsed "id" = Some (default VNone (field offer "id"))
    /\ field2 parsed "price" "total" = Some (default VNone (field2 offer "price" "total"))
    /\ field2 parsed "price" "currency"
       = Some (default VNone (field2 offer "price" "currency"))
    /\ items parsed "itineraries" = map itinerary_record (items offer "itineraries").
Proof.
  intros Hshape. exists (offer_record offer).
  split; [by apply parse_flight_offer_shaped|]. by repeat split.
Qed.

Lemma parse_flight_offer_never_raises_witness :
  is_raw_offer (VDict []) = true
  /\ exists parsed,
      parse_flight_offer (VDict []) = Ok parsed
      /\ parsed = offer_record (VDict [])
      /\ field parsed "id" = Some VNone
      /\ field2 parsed "price" "total" = Some VNone
      /\ field2 parsed "price" "currency" = Some VNone
      /\ items parsed "itineraries" = [].
Proof.
  split; [reflexivity|].
  exact (parse_flight_offer_never_raises (VDict []) eq_refl).
Defined.

(** C5: the parsed offer of a raw offer has one itinerary for each raw
    itinerary, in the same order, each being the normalised form of the raw
    itinerary at its position; each parsed itinerary has one segment for
    each raw segment, again in the same order.  An offer without
    itineraries gives a parsed offer with an empty list of itineraries. *)
Theorem parse_flight_offer_counts (offer : value) :
  is_raw_offer offer = true ->
  exists parsed,
    parse_flight_offer offer = Ok parsed
    /\ length (items parsed "itineraries") = length (items offer "itineraries")
    /\ Forall2
         (fun raw out =>
            parse_itinerary raw = Ok out
            /\ length (items out "segments") = length (items raw "segments")
            /\ Forall2 (fun s o => parse_segment s = Ok o)
                 (items raw "segments") (items out "segments"))
         (items offer "itineraries") (items parsed "itineraries")
    /\ (items offer "itineraries" = [] -> items parsed "itineraries" = []).
Proof.
  intros Hshape. exists (offer_record offer).
  split; [by apply parse_flight_offer_shaped|].
  change (items (offer_record offer) "itineraries")
    with (map itinerary_record (items offer "itineraries")).
  split; [by rewrite length_map|]. split; [|by intros ->].
  eapply Forall2_map_of; [|by apply shaped_itineraries].
  intros it Hit. cbn beta.
  change (items (itinerary_record it) "segments")
    with (map segment_record (items it "segments")).
  split; [by apply parse_itinerary_shaped|]. split; [by rewrite length_map|].
  eapply Forall2_map_of; [|by apply shaped_segments].
  intros s Hs. by apply parse_segment_shaped.
Qed.

Lemma parse_flight_offer_counts_witness :
  exists parsed,
    parse_flight_offer (sample_offer "1" "250.00") = Ok parsed
    /\ length (items parsed "itineraries") = 1
    /\ Forall2
         (fun raw out =>
            parse_itinerary raw = Ok out
            /\ length (items out "segments") = length (items raw "segments")
            /\ Forall2 (fun s o => parse_segment s = Ok o)
                 (items raw "segments") (items out "segments"))
         (items (sample_offer "1" "250.00") "itineraries") (items parsed "itineraries")
    /\ (items (sample_offer "1" "250.00") "itineraries" = [] ->
        items parsed "itineraries" = []).
Proof.
  exact (parse_flight_offer_counts (sample_offer "1" "250.00") eq_refl).
Defined.

(** C7: in the parsed offer of a raw offer, every segment has all its keys
    (departure, arrival, carrier, flight_number, aircraft, duration, and
    airport, time, terminal under departure and arrival); where the raw
    segment has no terminal or no aircraft code, the key is there and its
    value is [None]. *)
Theorem parse_flight_offer_segment_keys (offer : value) :
  is_raw_offer offer = true ->
  exists parsed,
    parse_flight_offer offer = Ok parsed
    /\ Forall2
         (fun raw_it out_it =>
            Forall2 segment_complete (items raw_it "segments") (items out_it "segments"))
         (items offer "itineraries") (items parsed "itineraries").
Proof.
  intros Hshape. exists (offer_record offer).
  split; [by apply parse_flight_offer_shaped|].
  change (items (offer_record offer) "itineraries")
    with (map itinerary_record (items offer "itineraries")).
  eapply Forall2_map_of; [|by apply shaped_itineraries].
  intros it Hit. cbn beta.
  change (items (itinerary_record it) "segments")
    with (map segment_record (items it "segments")).
  eapply Forall2_map_of with (P := fun _ => True); [|by apply List.Forall_forall].
  intros s _. split; [reflexivity|].
  repeat split; intros H; cbn; by rewrite H.
Qed.

Lemma parse_flight_offer_segment_keys_witness :
  exists parsed,
    parse_flight_offer (sample_offer "1" "250.00") = Ok parsed
    /\ Forall2
         (fun raw_it out_it =>
            Forall2 segment_complete (items raw_it "segments") (items out_it "segments"))
         (items (sample_offer "1" "250.00") "itineraries") (items parsed "itineraries").
Proof.
  exact (parse_flight_offer_segment_keys (sample_offer "1" "250.00") eq_refl).
Defined.

(** ** Ranking *)

Lemma list_sort_with_keys {A : Type} (key : A -> result pyfloat) (l : list A)
    (keys : list pyfloat) :
  Forall2 (fun x k => key x = Ok k) l keys ->
  list_sort key l = Ok (map snd (sort_keyed (zip keys l))).
Proof.
  intros H. apply map_result_Forall2 in H. unfold list_sort. by rewrite H.
Qed.

Lemma numeric_key_offer_record (offer : value) :
  numeric_key price_key (offer_record offer) = parses_as_number (raw_total offer).
Proof. reflexivity. Qed.

(** The list of the example: 250.00, 99.99, 99.99, 500.00. *)
Lemma list_sort_example {A : Type} (key : A -> result pyfloat) (p1 p2 p3 p4 : A) :
  key p1 = float_of_string "250.00" ->
  key p2 = float_of_string "99.99" ->
  key p3 = float_of_string "99.99" ->
  key p4 = float_of_string "500.00" ->
  list_sort key [ p1; p2; p3; p4 ] = Ok [ p2; p3; p1; p4 ].
Proof.
  intros H1 H2 H3 H4. unfold list_sort. cbn [map_result].
  rewrite H1, H2, H3, H4. clear. vm_compute. reflexivity.
Qed.

(** C6: when the search returns a list of N raw offers and [float] accepts
    every price total, [compare_flights] returns N parsed offers, and they
    are the parsed offers of the input, rearranged: none is dropped and none
    is repeated. *)
Theorem compare_flights_count amadeus a (raw_offers : list value) :
  amadeus (request_params a) = ApiResponse (VList raw_offers) ->
  Forall (fun o => is_raw_offer o = true) raw_offers ->
  Forall (fun o => float_parses (raw_total o) = true) raw_offers ->
  exists parsed out,
    map_result parse_flight_offer raw_offers = Ok parsed
    /\ compare_flights amadeus a = Ok out
    /\ length out = length raw_offers
    /\ Permutation out parsed.
Proof.
  intros Hresp Hshape Hprices.
  destruct (compare_flights_shaped _ _ _ Hresp Hshape) as [Hparsed Hcmp].
  destruct (list_sort_returns price_key (map offer_record raw_offers)) as [out Hout].
  { apply List.Forall_forall. intros p Hp.
    apply List.in_map_iff in Hp as (o & <- & Ho).
    rewrite price_key_offer_record.
    by apply (proj1 (List.Forall_forall _ _) Hprices). }
  exists (map offer_record raw_offers), out.
  pose proof (list_sort_perm _ _ _ Hout) as Hperm.
  repeat split; [done|by rewrite Hcmp| |done].
  by rewrite (Permutation_length Hperm), length_map.
Qed.

Lemma compare_flights_count_witness :
  let raw_offers := [ sample_offer "1" "250.00"; sample_offer "2" "99.99" ] in
  exists parsed out,
    map_result parse_flight_offer raw_offers = Ok parsed
    /\ compare_flights (client_returning (VList raw_offers)) sample_args = Ok out
    /\ length out = 2
    /\ Permutation out parsed.
Proof.
  intros raw_offers.
  apply (compare_flights_count (client_returning (VList raw_offers)) sample_args
           raw_offers eq_refl).
  - repeat constructor.
  - repeat (constructor; [vm_compute; reflexivity|]). constructor.
Defined.

(** C4: when the search returns a list of raw offers whose price totals
    [float] turns into numbers, [compare_flights] returns the parsed offers
    in ascending order of that number, and offers of equal price stay in the
    order in which the provider gave them.  For the totals 250.00, 99.99,
    99.99, 500.00 the result is the second, the third, the first and the
    fourth offer. *)
Theorem compare_flights_sorted amadeus a (raw_offers : list value) :
  amadeus (request_params a) = ApiResponse (VList raw_offers) ->
  Forall (fun o => is_raw_offer o = true) raw_offers ->
  Forall (fun o => parses_as_number (raw_total o) = true) raw_offers ->
  exists parsed out,
    map_result parse_flight_offer raw_offers = Ok parsed
    /\ compare_flights amadeus a = Ok out
    /\ Permutation out parsed
    /\ StronglySorted (le_by price_key) out
    /\ (forall k, List.filter (key_is price_key k) out
                  = List.filter (key_is price_key k) parsed)
    /\ (map raw_total raw_offers
          = [ VStr "250.00"; VStr "99.99"; VStr "99.99"; VStr "500.00" ] ->
        exists p1 p2 p3 p4,
          parsed = [ p1; p2; p3; p4 ] /\ out = [ p2; p3; p1; p4 ]).
Proof.
  intros Hresp Hshape Hprices.
  destruct (compare_flights_shaped _ _ _ Hresp Hshape) as [Hparsed Hcmp].
  destruct (list_sort_numeric price_key (map offer_record raw_offers))
    as (out & Hout & Hperm & Hsorted & Hstable).
  { apply List.Forall_forall. intros p Hp.
    apply List.in_map_iff in Hp as (o & <- & Ho).
    rewrite numeric_key_offer_record.
    by apply (proj1 (List.Forall_forall _ _) Hprices). }
  exists (map offer_record raw_offers), out.
  repeat split; [done|by rewrite Hcmp|done..|].
  intros Htotals.
  destruct raw_offers as [|o1 [|o2 [|o3 [|o4 [|]]]]]; try done.
  injection Htotals as H1 H2 H3 H4.
  exists (offer_record o1), (offer_record o2), (offer_record o3), (offer_record o4).
  split; [done|].
  change (map offer_record [ o1; o2; o3; o4 ])
    with [ offer_record o1; offer_record o2; offer_record o3; offer_record o4 ] in Hout.
  rewrite (list_sort_example price_key) in Hout; [by injection Hout as <-|..];
    rewrite price_key_offer_record; by rewrite ?H1, ?H2, ?H3, ?H4.
Qed.

Lemma compare_flights_sorted_witness :
  let raw_offers := [ sample_offer "a" "250.00"; sample_offer "b" "99.99";
                      sample_offer "c" "99.99"; sample_offer "d" "500.00" ] in
  exists parsed out,
    map_result parse_flight_offer raw_offers = Ok parsed
    /\ compare_flights (client_returning (VList raw_offers)) sample_args = Ok out
    /\ Permutation out parsed
    /\ StronglySorted (le_by price_key) out
    /\ (forall k, List.filter (key_is price_key k) out
                  = List.filter (key_is price_key k) parsed)
    /\ (map raw_total raw_offers
          = [ VStr "250.00"; VStr "99.99"; VStr "99.99"; VStr "500.00" ] ->
        exists p1 p2 p3 p4,
          parsed = [ p1; p2; p3; p4 ] /\ out = [ p2; p3; p1; p4 ]).
Proof.
  intros raw_offers.
  apply (compare_flights_sorted (client_returning (VList raw_offers)) sample_args
           raw_offers eq_refl).
  - repeat constructor.
  - repeat (constructor; [vm_compute; reflexivity|]). constructor.
Defined.

Lemma numeric_perm {A : Type} (key : A -> result pyfloat) (l l' : list A) :
  Permutation l' l ->
  Forall (fun x => numeric_key key x = true) l ->
  Forall (fun x => numeric_key key x = true) l'.
Proof. intros Hp Hl. by rewrite Hp. Qed.

(** C9: the sort step, on parsed offers whose price totals are numbers:
    a list that is ascending by price is returned as it is; a list that is
    strictly descending by price is returned reversed; in every case offers
    of equal price keep their order, and sorting the result again returns
    it unchanged. *)
Theorem sort_step_idempotent (parsed_offers : list value) :
  Forall (fun x => numeric_key price_key x = true) parsed_offers ->
  (Sorted (le_by price_key) parsed_offers ->
   list_sort price_key parsed_offers = Ok parsed_offers)
  /\ (Sorted (fun x y => lt_by price_key y x) parsed_offers ->
      list_sort price_key parsed_offers = Ok (rev parsed_offers))
  /\ exists out,
      list_sort price_key parsed_offers = Ok out
      /\ (forall k, List.filter (key_is price_key k) out
                    = List.filter (key_is price_key k) parsed_offers)
      /\ list_sort price_key out = Ok out.
Proof.
  intros Hnum. split; [by apply list_sort_ascending|].
  split; [by apply list_sort_descending|].
  destruct (list_sort_numeric price_key parsed_offers Hnum)
    as (out & Hout & Hperm & Hsorted & Hstable).
  exists out. repeat split; [done..|].
  apply list_sort_ascending.
  - by apply (numeric_perm _ _ _ Hperm).
  - by apply StronglySorted_Sorted.
Qed.

Lemma sort_step_idempotent_witness :
  let cheap := offer_record (sample_offer "a" "99.99") in
  let dear := offer_record (sample_offer "b" "250.00") in
  list_sort price_key [ cheap; dear ] = Ok [ cheap; dear ]
  /\ list_sort price_key [ dear; cheap ] = Ok [ cheap; dear ].
Proof.
  intros cheap dear.
  assert (Hup : Forall (fun x => numeric_key price_key x = true) [ cheap; dear ])
    by (repeat (constructor; [vm_compute; reflexivity|]); constructor).
  assert (Hdown : Forall (fun x => numeric_key price_key x = true) [ dear; cheap ])
    by (repeat (constructor; [vm_compute; reflexivity|]); constructor).
  split.
  - apply (proj1 (sort_step_idempotent [ cheap; dear ] Hup)).
    repeat constructor.
    eexists _, _. repeat split; vm_compute; reflexivity.
  - apply (proj1 (proj2 (sort_step_idempotent [ dear; cheap ] Hdown))).
    repeat constructor.
    eexists _, _. repeat split; vm_compute; reflexivity.
Defined.

(** C10: when the search returns a list of raw offers and one of them has
    no price total (no price, or a price without total), the normaliser
    gives that offer the total [None], [float] rejects it, and the sort of
    the parsed offers raises; [compare_flights] raises the same exception
    and returns no list. *)
Theorem compare_flights_absent_price amadeus a (raw_offers : list value) (offer : value) :
  amadeus (request_params a) = ApiResponse (VList raw_offers) ->
  Forall (fun o => is_raw_offer o = true) raw_offers ->
  In offer raw_offers ->
  field2 offer "price" "total" = None ->
  (exists parsed,
      parse_flight_offer offer = Ok parsed
      /\ field2 parsed "price" "total" = Some VNone
      /\ price_key parsed = Raise TypeError)
  /\ (exists parsed_offers e,
        map_result parse_flight_offer raw_offers = Ok parsed_offers
        /\ list_sort price_key parsed_offers = Raise e
        /\ compare_flights amadeus a = Raise e).
Proof.
  intros Hresp Hshape Hin Habsent.
  assert (Hkey : price_key (offer_record offer) = Raise TypeError).
  { rewrite price_key_offer_record. unfold raw_total. by rewrite Habsent. }
  split.
  - exists (offer_record offer). split.
    + apply parse_flight_offer_shaped.
      by apply (proj1 (List.Forall_forall _ _) Hshape).
    + split; [|done]. cbn. by rewrite Habsent.
  - destruct (compare_flights_shaped _ _ _ Hresp Hshape) as [Hparsed Hcmp].
    destruct (list_sort_raises price_key (map offer_record raw_offers)
                (offer_record offer)) as [e He].
    + by apply List.in_map.
    + by rewrite Hkey.
    + exists (map offer_record raw_offers), e. by rewrite Hcmp.
Qed.

Lemma compare_flights_absent_price_witness :
  let raw_offers := [ sample_offer "1" "250.00"; sample_offer_no_price "2" ] in
  In (sample_offer_no_price "2") raw_offers
  /\ exists parsed_offers e,
      map_result parse_flight_offer raw_offers = Ok parsed_offers
      /\ list_sort price_key parsed_offers = Raise e
      /\ compare_flights (client_returning (VList raw_offers)) sample_args = Raise e.
Proof.
  intros raw_offers.
  assert (Hin : In (sample_offer_no_price "2") raw_offers) by (right; left; reflexivity).
  split; [exact Hin|].
  apply (compare_flights_absent_price (client_returning (VList raw_offers)) sample_args
           raw_offers (sample_offer_no_price "2") eq_refl).
  - repeat constructor.
  - exact Hin.
  - reflexivity.
Defined.

(** ** The outbound call *)

Lemma request_params_lookup (a : search_args) :
  request_params a !! "returnDate"
  = if truthy (option_str (return_date a)) then Some (option_str (return_date a)) else None.
Proof.
  unfold request_params. destruct (truthy _).
  - apply lookup_insert_eq.
  - by rewrite !lookup_insert_ne, lookup_empty.
Qed.

Lemma append_nonempty (s : string) (c : ascii) (t : string) : s +:+ String c t <> "".
Proof. by destruct s. Qed.

Lemma strftime_ymd_nonempty (d : date) : strftime_ymd d <> "".
Proof. unfold strftime_ymd. apply (append_nonempty _ "-"%char). Qed.

Lemma truthy_str (s : string) : truthy (VStr s) = true <-> s <> "".
Proof.
  simpl. rewrite negb_true_iff. split.
  - intros H Hs. by apply String.eqb_neq in H.
  - intros H. by apply String.eqb_neq.
Qed.

(** C8: the parameters of the outbound call have the key returnDate if and
    only if the search arguments carry a return date (a string that is not
    empty), and then its value is that date.  With the return date that the
    form computes, the key is absent when the round trip is disabled and
    holds the formatted date when it is enabled. *)
Theorem request_params_return_date (a : search_args) :
  (is_Some (request_params a !! "returnDate")
   <-> exists s, return_date a = Some s /\ s <> "")
  /\ (forall s, return_date a = Some s -> s <> "" ->
      request_params a !! "returnDate" = Some (VStr s))
  /\ (forall return_cal, return_date a = gui_return_date false return_cal ->
      request_params a !! "returnDate" = None)
  /\ (forall return_cal, return_date a = gui_return_date true return_cal ->
      request_params a !! "returnDate" = Some (VStr (strftime_ymd return_cal))).
Proof.
  rewrite request_params_lookup.
  assert (Hsome : forall s, return_date a = Some s -> s <> "" ->
            (if truthy (option_str (return_date a))
             then Some (option_str (return_date a)) else None) = Some (VStr s)).
  { intros s -> Hs. apply truthy_str in Hs. cbn [option_str]. by rewrite Hs. }
  repeat split.
  - destruct (return_date a) as [s|]; cbn [option_str].
    + destruct (truthy (VStr s)) eqn:Hs; [|by intros []].
      intros _. exists s. split; [done|]. by apply truthy_str.
    + by intros [].
  - intros (s & Hs & Hne). by rewrite (Hsome s Hs Hne).
  - done.
  - intros return_cal Hcal. simpl in Hcal. by rewrite Hcal.
  - intros return_cal Hcal. apply Hsome; [done|]. apply strftime_ymd_nonempty.
Qed.

Lemma request_params_return_date_witness :
  let one_way := sample_args in
  let round_trip :=
    {| origin := "JFK"; destination := "LAX"; departure_date := "2026-03-01";
       adults := 1;
       return_date := gui_return_date true {| year := 2026; month := 3; day := 9 |};
       max_results := 10; currency := "USD"; non_stop := false |} in
  request_params one_way !! "returnDate" = None
  /\ request_params round_trip !! "returnDate" = Some (VStr "2026-03-09").
Proof.
  intros one_way round_trip. split.
  - apply (proj1 (proj2 (proj2 (request_params_return_date one_way)))
             {| year := 2026; month := 3; day := 9 |}).
    reflexivity.
  - apply (proj2 (proj2 (proj2 (request_params_return_date round_trip)))
             {| year := 2026; month := 3; day := 9 |}).
    reflexivity.
Defined.

(** * Beyond the pipeline *)

(** ** The parameters of the outbound call *)

(** X1: the seven search parameters are passed on as they were given, and
    the dictionary has no key besides these and, for a round trip,
    returnDate. *)
Theorem request_params_forwarded (a : search_args) :
  request_params a !! "originLocationCode" = Some (VStr (origin a))
  /\ request_params a !! "destinationLocationCode" = Some (VStr (destination a))
  /\ request_params a !! "departureDate" = Some (VStr (departure_date a))
  /\ request_params a !! "adults" = Some (VInt (adults a))
  /\ request_params a !! "max" = Some (VInt (max_results a))
  /\ request_params a !! "currencyCode" = Some (VStr (currency a))
  /\ request_params a !! "nonStop" = Some (VBool (non_stop a))
  /\ dom (request_params a)
     = ({[ "originLocationCode"; "destinationLocationCode"; "departureDate";
           "adults"; "max"; "currencyCode"; "nonStop" ]} : gset string)
       ∪ (if truthy (option_str (return_date a)) then {[ "returnDate" ]} else ∅).
Proof.
  unfold request_params.
  destruct (truthy (option_str (return_date a)));
    repeat split; try (by simplify_map_eq);
    rewrite !dom_insert_L, dom_empty_L; set_solver.
Qed.

(** ** search_flights *)

(** X2: [search_flights] turns a [ResponseError] into the empty list and
    otherwise returns the data of the response unchanged, except that it
    raises [TypeError] when the data is a number other than zero or [True]
    (the report of the number of results takes [len] of it).  It raises
    nothing else. *)
Theorem search_flights_outcomes amadeus (a : search_args) :
  (amadeus (request_params a) = ApiResponseError ->
   search_flights amadeus a = Ok (VList []))
  /\ (forall data, amadeus (request_params a) = ApiResponse data ->
      truthy_unsized data = false -> search_flights amadeus a = Ok data)
  /\ (forall data, amadeus (request_params a) = ApiResponse data ->
      truthy_unsized data = true -> search_flights amadeus a = Raise TypeError)
  /\ (forall e, search_flights amadeus a = Raise e ->
      e = TypeError
      /\ exists data, amadeus (request_params a) = ApiResponse data
           /\ match data with
              | VInt z => z <> 0%Z
              | VFloat f => float_eq f (Ffinite false 0) = false
              | VBool b => b = true
              | _ => False
              end).
Proof.
  unfold search_flights, truthy_unsized.
  destruct (amadeus (request_params a)) as [data|].
  - split; [done|]. split; [|split].
    + intros ? [= <-] H. destruct (truthy data); [|done].
      destruct (py_len data); simpl in *; done.
    + intros ? [= <-] H. destruct (truthy data); [|done].
      destruct (py_len data) eqn:E; simpl in *; [done|].
      f_equal. destruct data; simpl in E; congruence.
    + intros e. destruct data as [|b|z|f|s|l|d]; simpl; try done.
      * destruct b; [|done]. intros [= <-]. split; [done|]. by exists (VBool true).
      * destruct (Z.eqb_spec z 0); simpl; [done|].
        intros [= <-]. split; [done|]. by exists (VInt z).
      * destruct (float_eq f _) eqn:Hf; simpl; [done|].
        intros [= <-]. split; [done|]. by exists (VFloat f).
      * by destruct (negb _).
      * by destruct l.
      * by destruct d.
  - by repeat split.
Qed.

Lemma search_flights_outcomes_witness :
  search_flights (client_returning (VInt 5)) sample_args = Raise TypeError
  /\ search_flights (client_returning (VInt 0)) sample_args = Ok (VInt 0)
  /\ search_flights failing_client sample_args = Ok (VList []).
Proof.
  split; [|split].
  - apply (proj1 (proj2 (proj2 (search_flights_outcomes (client_returning (VInt 5))
                                   sample_args))) (VInt 5)); reflexivity.
  - apply (proj1 (proj2 (search_flights_outcomes (client_returning (VInt 0))
                           sample_args)) (VInt 0)); reflexivity.
  - apply (proj1 (search_flights_outcomes failing_client sample_args)). reflexivity.
Defined.

(** ** The normaliser on arbitrary values *)

Ltac bind_cases :=
  repeat match goal with
    | |- context [bind ?r _] =>
        let E := fresh "E" in destruct r eqn:E; cbn [bind]
    end.

Lemma py_get_raises (v : value) (k : string) (dflt : value) (e : pyerr) :
  py_get v k dflt = Raise e -> e = AttributeError.
Proof. destruct v; simpl; congruence. Qed.

Lemma get2_raises (v : value) (k1 k2 : string) (e : pyerr) :
  get2 v k1 k2 = Raise e -> e = AttributeError.
Proof.
  unfold get2. destruct (py_get v k1 _) eqn:E; simpl.
  - apply py_get_raises.
  - intros [= <-]. by apply py_get_raises in E.
Qed.

Lemma py_iter_raises (v : value) (e : pyerr) : py_iter v = Raise e -> e = TypeError.
Proof. destruct v; simpl; congruence. Qed.

Lemma map_result_raises_in {A B : Type} (P : pyerr -> Prop) (f : A -> result B)
    (l : list A) (e : pyerr) :
  (forall x e', f x = Raise e' -> P e') -> map_result f l = Raise e -> P e.
Proof.
  intros Hf. induction l as [|x xs IH]; simpl; [done|].
  destruct (f x) eqn:Hx; simpl.
  - destruct (map_result f xs); simpl; [done|]. intros [= <-]. by apply IH.
  - intros [= <-]. by apply (Hf x).
Qed.

Lemma map_result_forallb {A B : Type} (p : B -> bool) (f : A -> result B)
    (l : list A) (l' : list B) :
  (forall x y, f x = Ok y -> p y = true) -> map_result f l = Ok l' -> forallb p l' = true.
Proof.
  intros Hf H. apply map_result_Forall2 in H.
  induction H as [|x y xs ys Hxy _ IH]; simpl; [done|].
  by rewrite (Hf x y Hxy), IH.
Qed.

Lemma parse_segment_raises (s : value) (e : pyerr) :
  parse_segment s = Raise e -> e = AttributeError.
Proof.
  unfold parse_segment. bind_cases; try done; intros [= <-];
    match goal with
    | H : get2 _ _ _ = Raise _ |- _ => by apply get2_raises in H
    | H : py_get _ _ _ = Raise _ |- _ => by apply py_get_raises in H
    end.
Qed.

Lemma parse_segment_keys (s o : value) :
  parse_segment s = Ok o -> segment_keys_present o = true.
Proof. unfold parse_segment. bind_cases; try done. by intros [= <-]. Qed.

Lemma parse_itinerary_raises (it : value) (e : pyerr) :
  parse_itinerary it = Raise e -> e = AttributeError \/ e = TypeError.
Proof.
  unfold parse_itinerary. bind_cases; try done; intros [= <-].
  - match goal with H : py_get _ _ _ = Raise _ |- _ => apply py_get_raises in H end.
    by left.
  - left. eapply (map_result_raises_in (fun e => e = AttributeError)); [|done].
    intros x e'. apply parse_segment_raises.
  - match goal with H : py_iter _ = Raise _ |- _ => apply py_iter_raises in H end.
    by right.
  - match goal with H : py_get _ _ _ = Raise _ |- _ => apply py_get_raises in H end.
    by left.
Qed.

Lemma parse_itinerary_shape (raw it : value) :
  parse_itinerary raw = Ok it -> is_parsed_itinerary it = true.
Proof.
  unfold parse_itinerary. bind_cases; try done. intros [= <-].
  unfold is_parsed_itinerary. cbn.
  eapply map_result_forallb; [|done]. apply parse_segment_keys.
Qed.

Lemma parse_flight_offer_shape (offer parsed : value) :
  parse_flight_offer offer = Ok parsed -> is_parsed_offer parsed = true.
Proof.
  unfold parse_flight_offer. bind_cases; try done. intros [= <-].
  unfold is_parsed_offer. cbn.
  eapply map_result_forallb; [|done]. apply parse_itinerary_shape.
Qed.

Lemma parse_flight_offer_raises (offer : value) (e : pyerr) :
  parse_flight_offer offer = Raise e -> e = AttributeError \/ e = TypeError.
Proof.
  unfold parse_flight_offer. bind_cases; try done; intros [= <-];
    try match goal with
      | H : get2 _ _ _ = Raise _ |- _ => apply get2_raises in H; by left
      | H : py_get _ _ _ = Raise _ |- _ => apply py_get_raises in H; by left
      | H : py_iter _ = Raise _ |- _ => apply py_iter_raises in H; by right
      end.
  eapply (map_result_raises_in (fun e => e = AttributeError \/ e = TypeError)); [|done].
  intros x e'. apply parse_itinerary_raises.
Qed.

(** X3: whatever the raw offer is, a parsed offer that [parse_flight_offer]
    returns has the keys id, price and itineraries, total and currency
    under price, duration and segments in every itinerary, and all the
    segment keys in every segment. *)
Theorem parse_flight_offer_output_shape (offer parsed : value) :
  parse_flight_offer offer = Ok parsed -> is_parsed_offer parsed = true.
Proof. apply parse_flight_offer_shape. Qed.

Lemma parse_flight_offer_output_shape_witness :
  is_parsed_offer (offer_record (sample_offer "1" "250.00")) = true.
Proof.
  exact (parse_flight_offer_output_shape (sample_offer "1" "250.00")
           (offer_record (sample_offer "1" "250.00")) eq_refl).
Defined.

(** X4: [parse_flight_offer] raises nothing but [AttributeError] (a value
    that should be a mapping has no [get]) and [TypeError] (a value that
    should be a sequence cannot be iterated). *)
Theorem parse_flight_offer_error_kinds (offer : value) (e : pyerr) :
  parse_flight_offer offer = Raise e -> e = AttributeError \/ e = TypeError.
Proof. apply parse_flight_offer_raises. Qed.

Lemma parse_flight_offer_error_kinds_witness :
  AttributeError = AttributeError \/ AttributeError = TypeError.
Proof.
  exact (parse_flight_offer_error_kinds (VDict [ ("price", VNone) ]) AttributeError eq_refl).
Defined.

(** X5: a field that is present but of the wrong kind makes the normaliser
    raise: an offer that is not a mapping, or a price that is there and is
    not a mapping (for instance [None]), gives [AttributeError]; in an
    offer whose price is fine, itineraries that are [None], a number or a
    truth value give [TypeError]. *)
Theorem parse_flight_offer_wrong_kind (offer : value) :
  (is_dict offer = false -> parse_flight_offer offer = Raise AttributeError)
  /\ (forall v, field offer "price" = Some v -> is_dict v = false ->
      parse_flight_offer offer = Raise AttributeError)
  /\ (forall v, is_dict offer = true -> absent_or_dict offer "price" = true ->
      field offer "itineraries" = Some v -> is_ok (py_iter v) = false ->
      parse_flight_offer offer = Raise TypeError).
Proof.
  split; [|split].
  - by destruct offer.
  - intros v Hv Hd. destruct offer as [| | | | | |d]; try done. simpl in Hv.
    unfold parse_flight_offer, get2. cbn [py_get bind]. rewrite Hv. cbn [default].
    by destruct v.
  - intros v Hd Hprice Hv Hiter. unfold parse_flight_offer.
    rewrite !(py_get_dict _ _ _ Hd), !(get2_shaped _ _ _ Hd Hprice). cbn [bind].
    rewrite Hv. simpl.
    destruct (py_iter v) eqn:E; [done|]. simpl. by apply py_iter_raises in E as ->.
Qed.

Lemma parse_flight_offer_wrong_kind_witness :
  parse_flight_offer (VStr "offer") = Raise AttributeError
  /\ parse_flight_offer (VDict [ ("price", VNone) ]) = Raise AttributeError
  /\ parse_flight_offer (VDict [ ("itineraries", VNone) ]) = Raise TypeError.
Proof.
  split; [|split].
  - apply (proj1 (parse_flight_offer_wrong_kind (VStr "offer"))). reflexivity.
  - apply (proj1 (proj2 (parse_flight_offer_wrong_kind (VDict [ ("price", VNone) ])))
             VNone); reflexivity.
  - apply (proj2 (proj2 (parse_flight_offer_wrong_kind (VDict [ ("itineraries", VNone) ])))
             VNone); reflexivity.
Defined.

(** ** compare_flights on arbitrary responses *)

Lemma map_result_raises_among {A B : Type} (P : pyerr -> Prop) (f : A -> result B)
    (l : list A) (e : pyerr) :
  Forall (fun x => forall e', f x = Raise e' -> P e') l ->
  map_result f l = Raise e -> P e.
Proof.
  induction 1 as [|x xs Hx _ IH]; simpl; [done|].
  destruct (f x) eqn:Hfx; simpl.
  - destruct (map_result f xs); simpl; [done|]. intros [= <-]. by apply IH.
  - intros [= <-]. by apply Hx.
Qed.

Lemma field_getitem (v : value) (k : string) (x : value) :
  field v k = Some x -> py_getitem v k = Ok x.
Proof. destruct v; simpl; try done. by intros ->. Qed.

Lemma has_key_getitem (v : value) (k : string) (ks : list string) :
  has_keys v ks = true -> In k ks -> exists x, field v k = Some x /\ py_getitem v k = Ok x.
Proof.
  unfold has_keys. rewrite forallb_forall. intros H Hk.
  specialize (H k Hk). apply bool_decide_eq_true in H as [x Hx].
  exists x. split; [done|]. by apply field_getitem.
Qed.

Lemma parsed_offer_price (p : value) :
  is_parsed_offer p = true -> exists total, price_key p = py_float total.
Proof.
  unfold is_parsed_offer. rewrite !andb_true_iff. intros [[Hkeys Hprice] _].
  destruct (has_key_getitem p "price" _ Hkeys) as (price & Hf & Hg); [simpl; tauto|].
  rewrite Hf in Hprice.
  destruct (has_key_getitem price "total" _ Hprice) as (total & _ & Ht); [simpl; tauto|].
  exists total. unfold price_key. rewrite Hg. cbn [bind]. by rewrite Ht.
Qed.

Lemma float_of_int_raises (z : Z) (e : pyerr) : float_of_int z = Raise e -> e = OverflowError.
Proof. unfold float_of_int. destruct (round_units _ _); congruence. Qed.

Lemma py_float_raises (v : value) (e : pyerr) :
  py_float v = Raise e -> e = TypeError \/ e = ValueError \/ e = OverflowError.
Proof.
  destruct v as [|b|z|f|s|l|d]; simpl; try (intros [= <-]; by left); try done.
  - intros H. apply float_of_int_raises in H. tauto.
  - intros H. apply float_of_int_raises in H. tauto.
  - intros H. apply float_of_string_raises in H. tauto.
Qed.

Lemma parsed_offers_of (raw_offers parsed : list value) :
  map_result parse_flight_offer raw_offers = Ok parsed ->
  Forall (fun p => is_parsed_offer p = true) parsed.
Proof.
  intros H. apply List.Forall_forall, forallb_forall.
  eapply map_result_forallb; [|exact H]. apply parse_flight_offer_shape.
Qed.

(** What [compare_flights] does, by the outcome of the call. *)
Lemma compare_flights_unfold amadeus (a : search_args) :
  compare_flights amadeus a =
    match amadeus (request_params a) with
    | ApiResponseError => Ok []
    | ApiResponse data =>
        if truthy data then
          do _ <- py_len data;
          do raw_offers <- py_iter data;
          do parsed_offers <- map_result parse_flight_offer raw_offers;
          list_sort price_key parsed_offers
        else Ok []
    end.
Proof.
  unfold compare_flights, search_flights.
  destruct (amadeus (request_params a)) as [data|]; [|done].
  destruct (truthy data) eqn:Ht; simpl; [|by rewrite Ht].
  destruct (py_len data); simpl; [|done]. by rewrite Ht.
Qed.

Lemma compare_flights_ok_shape amadeus (a : search_args) (out : list value) :
  compare_flights amadeus a = Ok out -> Forall (fun p => is_parsed_offer p = true) out.
Proof.
  rewrite compare_flights_unfold.
  destruct (amadeus (request_params a)) as [data|]; [|by intros [= <-]].
  destruct (truthy data); [|by intros [= <-]].
  bind_cases; try done. intros Hsort.
  apply list_sort_perm in Hsort. rewrite Hsort. by eapply parsed_offers_of.
Qed.

(** X6: whenever [compare_flights] returns on a response that carries a
    list of N raw offers, whatever they are, it returns N parsed offers:
    the parsed offers of the input, rearranged, each with all its keys. *)
Theorem compare_flights_returns_all amadeus (a : search_args)
    (raw_offers out : list value) :
  amadeus (request_params a) = ApiResponse (VList raw_offers) ->
  compare_flights amadeus a = Ok out ->
  exists parsed,
    map_result parse_flight_offer raw_offers = Ok parsed
    /\ Permutation out parsed
    /\ length out = length raw_offers
    /\ Forall (fun p => is_parsed_offer p = true) out.
Proof.
  intros Hresp Hout. pose proof (compare_flights_ok_shape _ _ _ Hout) as Hshape.
  rewrite (compare_flights_on_list _ _ _ Hresp) in Hout.
  destruct (map_result parse_flight_offer raw_offers) as [parsed|] eqn:Hparsed; [|done].
  simpl in Hout. apply list_sort_perm in Hout.
  exists parsed. repeat split; [done| |done].
  by rewrite (Permutation_length Hout), (map_result_length _ _ _ Hparsed).
Qed.

Lemma compare_flights_returns_all_witness :
  let raw_offers := [ sample_offer "1" "250.00"; sample_offer "2" "99.99" ] in
  let out := [ offer_record (sample_offer "2" "99.99");
               offer_record (sample_offer "1" "250.00") ] in
  exists parsed,
    map_result parse_flight_offer raw_offers = Ok parsed
    /\ Permutation out parsed
    /\ length out = 2
    /\ Forall (fun p => is_parsed_offer p = true) out.
Proof.
  intros raw_offers out.
  apply (compare_flights_returns_all (client_returning (VList raw_offers)) sample_args
           raw_offers out eq_refl).
  vm_compute. reflexivity.
Defined.

(** X7: [compare_flights] raises only [AttributeError], [TypeError],
    [ValueError] or [OverflowError], whatever the call returns; the lookups
    of price and total in the sort key never raise [KeyError]. *)
Theorem compare_flights_error_kinds amadeus (a : search_args) (e : pyerr) :
  compare_flights amadeus a = Raise e -> pipeline_error e = true.
Proof.
  rewrite compare_flights_unfold.
  destruct (amadeus (request_params a)) as [data|]; [|done].
  destruct (truthy data); [|done].
  bind_cases.
  - unfold list_sort. bind_cases; [done|]. intros [= <-].
    eapply (map_result_raises_among (fun e => pipeline_error e = true)); [|done].
    eapply Forall_impl; [by eapply parsed_offers_of|].
    intros p Hp e' He'. destruct (parsed_offer_price p Hp) as [total Ht].
    rewrite Ht in He'. by apply py_float_raises in He' as [->|[->| ->]].
  - intros [= <-].
    match goal with H : map_result _ _ = Raise _ |- _ =>
      apply (map_result_raises_in (fun e => pipeline_error e = true)) in H end; [done|].
    intros x e' He'. by apply parse_flight_offer_raises in He' as [->| ->].
  - intros [= <-].
    match goal with H : py_iter _ = Raise _ |- _ => by apply py_iter_raises in H as -> end.
  - intros [= <-]. destruct data; by simplify_eq/=.
Qed.

Lemma compare_flights_error_kinds_witness :
  pipeline_error ValueError = true.
Proof.
  exact (compare_flights_error_kinds
           (client_returning (VList [ sample_offer "1" "N/A" ])) sample_args ValueError
           eq_refl).
Defined.

(** X8: when the data of the response is a mapping or a string that is not
    empty, and not a list, the loop runs over its keys or characters, which
    are strings, and [compare_flights] raises [AttributeError]. *)
Theorem compare_flights_not_a_list amadeus (a : search_args) (data : value) :
  amadeus (request_params a) = ApiResponse data ->
  truthy data = true ->
  match data with VDict _ | VStr _ => True | _ => False end ->
  compare_flights amadeus a = Raise AttributeError.
Proof.
  intros Hresp Ht Hkind. rewrite compare_flights_unfold, Hresp, Ht.
  destruct data as [| | | |s|l|d]; try done.
  - destruct s as [|c s]; [done|]. reflexivity.
  - destruct d as [|[k v] d]; [done|]. reflexivity.
Qed.

Lemma compare_flights_not_a_list_witness :
  compare_flights
    (client_returning (VDict [ ("errors", VList [ VStr "bad request" ]) ])) sample_args
  = Raise AttributeError.
Proof.
  apply (compare_flights_not_a_list
           (client_returning (VDict [ ("errors", VList [ VStr "bad request" ]) ]))
           sample_args (VDict [ ("errors", VList [ VStr "bad request" ]) ]));
    reflexivity || exact I.
Defined.

(** ** The ranking does not depend on the order of the provider *)

Lemma sorted_by_rank_unique {A : Type} (f : A -> Z) (l1 l2 : list A) :
  StronglySorted (fun x y => (f x <= f y)%Z) l1 ->
  StronglySorted (fun x y => (f x <= f y)%Z) l2 ->
  Permutation l1 l2 -> NoDup (map f l1) -> l1 = l2.
Proof.
  intros H1. revert l2. induction H1 as [|x xs Hxs IH Hx]; intros l2 H2 Hperm Hnd.
  - by apply Permutation_nil in Hperm.
  - destruct H2 as [|y ys Hys Hy].
    + by apply Permutation_sym, Permutation_nil in Hperm.
    + simpl in Hnd. apply NoDup_cons in Hnd as [Hnin Hnd].
      assert (x = y) as <-.
      { assert (Hyin : In y (x :: xs))
          by (eapply Permutation_in; [symmetry; exact Hperm|by left]).
        destruct Hyin as [Hyx|Hyin]; [done|].
        assert (Hxin : In x (y :: ys))
          by (eapply Permutation_in; [exact Hperm|by left]).
        destruct Hxin as [Hxy|Hxin]; [done|].
        exfalso. apply Hnin. apply list_elem_of_In.
        assert (f x = f y) as ->.
        { apply Z.le_antisymm.
          - by apply (proj1 (List.Forall_forall _ _) Hx).
          - by apply (proj1 (List.Forall_forall _ _) Hy). }
        by apply List.in_map. }
      f_equal. apply IH; [done| |done]. by apply Permutation_cons_inv in Hperm.
Qed.

Lemma le_by_rank (x y : value) :
  le_by price_key x y -> (price_rank x <= price_rank y)%Z.
Proof.
  intros (f & g & Hf & Hg & Hle). unfold price_rank. rewrite Hf, Hg.
  by apply float_le_number in Hle as (_ & _ & Hle).
Qed.

Lemma StronglySorted_weaken {A : Type} (R R' : A -> A -> Prop) (l : list A) :
  (forall x y, R x y -> R' x y) -> StronglySorted R l -> StronglySorted R' l.
Proof.
  intros HR. induction 1 as [|x xs _ IH Hx]; constructor; [done|].
  eapply Forall_impl; [exact Hx|]. intros y. apply HR.
Qed.

(** X9: when the prices are numbers and no two offers have the same price,
    the result of [compare_flights] does not depend on the order in which
    the provider lists the offers. *)
Theorem compare_flights_order_independent amadeus1 amadeus2 (a1 a2 : search_args)
    (offers1 offers2 : list value) :
  amadeus1 (request_params a1) = ApiResponse (VList offers1) ->
  amadeus2 (request_params a2) = ApiResponse (VList offers2) ->
  Permutation offers1 offers2 ->
  Forall (fun o => is_raw_offer o = true) offers1 ->
  Forall (fun o => parses_as_number (raw_total o) = true) offers1 ->
  NoDup (map (fun o => price_rank (offer_record o)) offers1) ->
  compare_flights amadeus1 a1 = compare_flights amadeus2 a2.
Proof.
  intros Hr1 Hr2 Hperm Hshape1 Hnum1 Hnd.
  assert (Hshape2 : Forall (fun o => is_raw_offer o = true) offers2) by (by rewrite <- Hperm).
  assert (Hnum2 : Forall (fun o => parses_as_number (raw_total o) = true) offers2)
    by (by rewrite <- Hperm).
  destruct (compare_flights_shaped _ _ _ Hr1 Hshape1) as [_ ->].
  destruct (compare_flights_shaped _ _ _ Hr2 Hshape2) as [_ ->].
  assert (Hkeys : forall offers,
            Forall (fun o => parses_as_number (raw_total o) = true) offers ->
            Forall (fun x => numeric_key price_key x = true) (map offer_record offers)).
  { intros offers H. apply List.Forall_forall. intros p Hp.
    apply List.in_map_iff in Hp as (o & <- & Ho). rewrite numeric_key_offer_record.
    by apply (proj1 (List.Forall_forall _ _) H). }
  destruct (list_sort_numeric price_key _ (Hkeys _ Hnum1)) as (out1 & -> & Hp1 & Hs1 & _).
  destruct (list_sort_numeric price_key _ (Hkeys _ Hnum2)) as (out2 & -> & Hp2 & Hs2 & _).
  f_equal. apply (sorted_by_rank_unique price_rank).
  - eapply StronglySorted_weaken; [|exact Hs1]. apply le_by_rank.
  - eapply StronglySorted_weaken; [|exact Hs2]. apply le_by_rank.
  - rewrite Hp1, Hp2. by apply Permutation_map.
  - rewrite Hp1, List.map_map. exact Hnd.
Qed.

Lemma compare_flights_order_independent_witness :
  let offers1 := [ sample_offer "1" "250.00"; sample_offer "2" "99.99" ] in
  let offers2 := [ sample_offer "2" "99.99"; sample_offer "1" "250.00" ] in
  compare_flights (client_returning (VList offers1)) sample_args
  = compare_flights (client_returning (VList offers2)) sample_args.
Proof.
  intros offers1 offers2.
  apply (compare_flights_order_independent _ _ sample_args sample_args offers1 offers2
           eq_refl eq_refl).
  - apply perm_swap.
  - repeat constructor.
  - repeat (constructor; [vm_compute; reflexivity|]). constructor.
  - apply NoDup_cons. split; [|apply NoDup_singleton].
    intros Hin. apply list_elem_of_singleton in Hin. vm_compute in Hin. discriminate.
Defined.

(** ** The constructor *)

(** X10: the constructor accepts the credentials exactly when key and
    secret are both set and not empty, and then keeps them; when one of
    them is missing or empty it raises [ValueError]. *)
Theorem aggregator_init_credentials (api_key api_secret : option string) :
  (forall k s, api_key = Some k -> api_secret = Some s -> k <> "" -> s <> "" ->
   aggregator_init api_key api_secret = Ok {| client_id := k; client_secret := s |})
  /\ (api_key = None \/ api_key = Some "" \/ api_secret = None \/ api_secret = Some "" ->
      aggregator_init api_key api_secret = Raise ValueError)
  /\ (is_ok (aggregator_init api_key api_secret) = true <->
      exists k s, api_key = Some k /\ api_secret = Some s /\ k <> "" /\ s <> "").
Proof.
  unfold aggregator_init.
  destruct api_key as [k|], api_secret as [s|]; simpl;
    try destruct (String.eqb_spec k ""); try destruct (String.eqb_spec s ""); simpl;
    (split; [intros ? ? [= <-] [= <-] ? ?; done || congruence|]);
    (split; [intros [H|[H|[H|H]]]; congruence || done|]);
    (split; [try done|]); try (intros (? & ? & ? & ? & ? & ?); congruence).
  intros _. by exists k, s.
Qed.

Lemma aggregator_init_credentials_witness :
  aggregator_init (Some "key") (Some "secret")
    = Ok {| client_id := "key"; client_secret := "secret" |}
  /\ aggregator_init (Some "key") (Some "") = Raise ValueError.
Proof.
  split.
  - apply (proj1 (aggregator_init_credentials (Some "key") (Some "secret")) "key" "secret");
      done.
  - apply (proj1 (proj2 (aggregator_init_credentials (Some "key") (Some "")))).
    right. right. right. reflexivity.
Defined.

(** ** Writing to the terminal *)

Lemma writes_print (s : string) : writes 1 (print s).
Proof. intros out. by exists [ s +:+ NL ]. Qed.

Lemma writes_ret : writes 0 (prog_ret tt).
Proof. intros out. exists []. by rewrite app_nil_r. Qed.

Lemma writes_bind (n k : nat) (m : prog (list string) unit)
    (f : unit -> prog (list string) unit) :
  writes n m -> writes k (f tt) -> writes (n + k) (prog_bind m f).
Proof.
  intros Hm Hf out. destruct (Hm out) as (l1 & H1 & Hn).
  destruct (Hf (out ++ l1)%list) as (l2 & H2 & Hk).
  exists (l1 ++ l2)%list. unfold prog_bind. rewrite H1, H2, app_assoc.
  split; [done|]. rewrite length_app. lia.
Qed.

Lemma writes_lift {A : Type} (n : nat) (r : result A) (a : A)
    (f : A -> prog (list string) unit) :
  r = Ok a -> writes n (f a) -> writes n (prog_bind (prog_lift r) f).
Proof. intros -> Hf out. exact (Hf out). Qed.

Lemma writes_for_enumerate {A : Type} (c : A -> nat) (l : list A) (i : nat)
    (body : nat -> A -> prog (list string) unit) :
  Forall (fun x => forall j, writes (c x) (body j x)) l ->
  writes (sum_list (map c l)) (for_enumerate i l body).
Proof.
  intros H. revert i. induction H as [|x xs Hx _ IH]; intros i; simpl.
  - apply writes_ret.
  - apply writes_bind; [apply Hx|apply IH].
Qed.

Lemma getitem2_ok (v inner x : value) (k1 k2 : string) :
  field v k1 = Some inner -> field inner k2 = Some x -> getitem2 v k1 k2 = Ok x.
Proof.
  intros H1 H2. unfold getitem2. rewrite (field_getitem _ _ _ H1). simpl.
  by apply field_getitem.
Qed.

Section TerminalFacts.
Variable py_str : value -> string.
Variable exn_text : pyerr -> string.

Lemma display_segment_writes (j : nat) (segment : value) :
  segment_keys_present segment = true -> writes 6 (display_segment py_str j segment).
Proof.
  unfold segment_keys_present. rewrite andb_true_iff. intros [Hkeys Hnested].
  destruct (has_key_getitem segment "departure" _ Hkeys) as (dep & Hdep & _);
    [simpl; tauto|].
  destruct (has_key_getitem segment "arrival" _ Hkeys) as (arr & Harr & _);
    [simpl; tauto|].
  destruct (has_key_getitem segment "carrier" _ Hkeys) as (carrier & _ & Hcarrier);
    [simpl; tauto|].
  destruct (has_key_getitem segment "flight_number" _ Hkeys) as (number & _ & Hnumber);
    [simpl; tauto|].
  destruct (has_key_getitem segment "duration" _ Hkeys) as (duration & _ & Hduration);
    [simpl; tauto|].
  rewrite Hdep, Harr in Hnested. apply andb_true_iff in Hnested as [Hd Ha].
  destruct (has_key_getitem dep "airport" _ Hd) as (da & Hda & _); [simpl; tauto|].
  destruct (has_key_getitem dep "time" _ Hd) as (dt & Hdt & _); [simpl; tauto|].
  destruct (has_key_getitem arr "airport" _ Ha) as (aa & Haa & _); [simpl; tauto|].
  destruct (has_key_getitem arr "time" _ Ha) as (at' & Hat & _); [simpl; tauto|].
  unfold display_segment.
  apply (writes_bind 1 5); [apply writes_print|].
  eapply writes_lift; [exact Hcarrier|].
  eapply writes_lift; [exact Hnumber|].
  apply (writes_bind 1 4); [apply writes_print|].
  eapply writes_lift; [exact (getitem2_ok _ _ _ _ _ Hdep Hda)|].
  eapply writes_lift; [exact (getitem2_ok _ _ _ _ _ Harr Haa)|].
  apply (writes_bind 1 3); [apply writes_print|].
  eapply writes_lift; [exact (getitem2_ok _ _ _ _ _ Hdep Hdt)|].
  apply (writes_bind 1 2); [apply writes_print|].
  eapply writes_lift; [exact (getitem2_ok _ _ _ _ _ Harr Hat)|].
  apply (writes_bind 1 1); [apply writes_print|].
  eapply writes_lift; [exact Hduration|].
  apply writes_print.
Qed.

Lemma sum_list_const {A : Type} (c : nat) (l : list A) :
  sum_list (map (fun _ => c) l) = c * length l.
Proof. induction l as [|x xs IH]; [simpl; lia|]. cbn [map sum_list_with length id] in *. lia. Qed.

Lemma display_itinerary_writes (i : nat) (itinerary : value) :
  is_parsed_itinerary itinerary = true ->
  writes (1 + 6 * length (items itinerary "segments"))
    (display_itinerary py_str i itinerary).
Proof.
  unfold is_parsed_itinerary. rewrite andb_true_iff. intros [Hkeys Hsegs].
  destruct (has_key_getitem itinerary "duration" _ Hkeys) as (duration & _ & Hduration);
    [simpl; tauto|].
  unfold items.
  destruct (field itinerary "segments") as [[| | | | |segs|]|] eqn:Hfield; try done.
  unfold display_itinerary.
  eapply writes_lift; [exact Hduration|].
  apply writes_bind; [apply writes_print|].
  eapply writes_lift; [exact (field_getitem _ _ _ Hfield)|].
  eapply writes_lift; [reflexivity|].
  rewrite <- (sum_list_const 6 segs).
  apply writes_for_enumerate.
  apply List.Forall_forall. intros s Hs j. apply display_segment_writes.
  by apply (proj1 (forallb_forall _ _) Hsegs).
Qed.

Lemma sum_list_itineraries (its : list value) :
  sum_list (map (fun it => 1 + 6 * length (items it "segments")) its)
  = length its + 6 * sum_list (map (fun it => length (items it "segments")) its).
Proof. induction its as [|it its IH]; [done|]. cbn [map sum_list_with length id] in *. lia. Qed.

Lemma display_flight_writes (flight : value) (index : option Z) :
  is_parsed_offer flight = true ->
  writes (2 + length (items flight "itineraries") + 6 * segment_count flight)
    (display_flight py_str flight index).
Proof.
  unfold is_parsed_offer. rewrite !andb_true_iff. intros [[Hkeys Hprice] Hits].
  destruct (has_key_getitem flight "id" _ Hkeys) as (id & _ & Hid); [simpl; tauto|].
  destruct (has_key_getitem flight "price" _ Hkeys) as (price & Hp & _); [simpl; tauto|].
  rewrite Hp in Hprice.
  destruct (has_key_getitem price "total" _ Hprice) as (total & Ht & _); [simpl; tauto|].
  destruct (has_key_getitem price "currency" _ Hprice) as (cur & Hc & _); [simpl; tauto|].
  destruct (field flight "itineraries") as [[| | | | |its|]|] eqn:Hfield; try done.
  assert (Hitems : items flight "itineraries" = its) by (unfold items; by rewrite Hfield).
  unfold segment_count. rewrite Hitems.
  unfold display_flight.
  eapply writes_lift; [exact Hid|].
  replace (2 + length its + 6 * sum_list (map (fun it => length (items it "segments")) its))
    with (1 + (1 + sum_list (map (fun it => 1 + 6 * length (items it "segments")) its)))
    by (rewrite sum_list_itineraries; lia).
  apply writes_bind; [apply writes_print|].
  eapply writes_lift; [exact (getitem2_ok _ _ _ _ _ Hp Ht)|].
  eapply writes_lift; [exact (getitem2_ok _ _ _ _ _ Hp Hc)|].
  apply writes_bind; [apply writes_print|].
  eapply writes_lift; [exact (field_getitem _ _ _ Hfield)|].
  eapply writes_lift; [reflexivity|].
  apply writes_for_enumerate.
  apply List.Forall_forall. intros it Hit j. apply display_itinerary_writes.
  by apply (proj1 (forallb_forall _ _) Hits).
Qed.

(** X11: a parsed offer that the normaliser returned can always be
    displayed: [display_flight] does not raise on it, and it writes two
    lines for the offer, one for each itinerary and six for each segment. *)
Theorem display_flight_after_parse (offer flight : value) (index : option Z) :
  parse_flight_offer offer = Ok flight ->
  writes (2 + length (items flight "itineraries") + 6 * segment_count flight)
    (display_flight py_str flight index).
Proof.
  intros Hparse. apply display_flight_writes. by eapply parse_flight_offer_shape.
Qed.

End TerminalFacts.

Lemma display_flight_after_parse_witness :
  writes 9 (display_flight plain_str (offer_record (sample_offer "1" "250.00")) (Some 1%Z)).
Proof.
  exact (display_flight_after_parse plain_str (sample_offer "1" "250.00")
           (offer_record (sample_offer "1" "250.00")) (Some 1%Z) eq_refl).
Defined.

(** ** main *)

Lemma py_int_raises (s : string) (e : pyerr) : py_int s = Raise e -> e = ValueError.
Proof.
  unfold py_int. destruct (take_sign _) as [neg body].
  destruct (take_int_digits _ _ _ _) as [[z n]|]; [|congruence].
  destruct (n <=? int_max_str_digits)%nat; congruence.
Qed.

(** What the questions write and return does not depend on what is on
    the terminal already. *)
Lemma read_search_args_appends (i : cli_inputs) (out : list string) :
  read_search_args i out
  = ((out ++ fst (read_search_args i []))%list, snd (read_search_args i [])).
Proof.
  unfold read_search_args, prog_bind, input, prog_lift, prog_ret.
  cbv beta iota zeta.
  destruct (if nonempty (str_strip (in_adults i)) then _ else _) as [ad|e1].
  - destruct (if nonempty (str_strip (in_max_results i)) then _ else _) as [mr|e2];
      cbv beta iota; cbn [fst snd]; by rewrite <- !app_assoc.
  - cbv beta iota. cbn [fst snd]. by rewrite <- !app_assoc.
Qed.

(** X12: when the answers for return date, passengers, maximum and
    currency are left blank, [main] asks all eight questions and searches
    one way for one adult, at most ten results, in USD; the codes are the
    answers without surrounding blanks and in upper case, whatever their
    length, and the call carries no returnDate. *)
Theorem read_search_args_defaults (i : cli_inputs) (out : list string) :
  str_strip (in_return_date i) = "" ->
  str_strip (in_adults i) = "" ->
  str_strip (in_max_results i) = "" ->
  str_strip (in_currency i) = "" ->
  exists args,
    read_search_args i out = ((out ++ cli_prompts)%list, Ok args)
    /\ adults args = 1%Z
    /\ max_results args = 10%Z
    /\ currency args = "USD"
    /\ return_date args = None
    /\ request_params args !! "returnDate" = None
    /\ origin args = str_upper (str_strip (in_origin i))
    /\ destination args = str_upper (str_strip (in_destination i))
    /\ non_stop args = String.eqb (str_lower (str_strip (in_non_stop i))) "y".
Proof.
  intros Hrd Had Hmr Hcu. eexists.
  split.
  - rewrite read_search_args_appends.
    unfold read_search_args, prog_bind, input, prog_lift, prog_ret.
    cbv beta iota zeta. rewrite Hrd, Had, Hmr, Hcu. reflexivity.
  - cbn [adults max_results currency return_date origin destination non_stop].
    by repeat split.
Qed.

Lemma read_search_args_defaults_witness :
  exists args,
    read_search_args sample_inputs [] = (cli_prompts, Ok args)
    /\ adults args = 1%Z
    /\ max_results args = 10%Z
    /\ currency args = "USD"
    /\ return_date args = None
    /\ request_params args !! "returnDate" = None
    /\ origin args = "JFK"
    /\ destination args = "LAX"
    /\ non_stop args = true.
Proof.
  exact (read_search_args_defaults sample_inputs [] eq_refl eq_refl eq_refl eq_refl).
Defined.

(** X13: when the answer for the number of passengers is not blank and
    [int] rejects it, the questioning stops there with [ValueError]: five
    questions were asked, the last three never are. *)
Theorem read_search_args_bad_number (i : cli_inputs) (out : list string) :
  str_strip (in_adults i) <> "" ->
  is_ok (py_int (str_strip (in_adults i))) = false ->
  read_search_args i out = ((out ++ take 5 cli_prompts)%list, Raise ValueError).
Proof.
  intros Hne Hbad. rewrite read_search_args_appends.
  unfold read_search_args, prog_bind, input, prog_lift, prog_ret.
  cbv beta iota zeta.
  apply truthy_str in Hne. unfold nonempty. rewrite Hne.
  destruct (py_int (str_strip (in_adults i))) as [|e] eqn:E; [done|].
  apply py_int_raises in E as ->. reflexivity.
Qed.

Lemma read_search_args_bad_number_witness :
  read_search_args
    {| in_origin := "JFK"; in_destination := "LAX"; in_departure_date := "2026-03-01";
       in_return_date := ""; in_adults := "two"; in_non_stop := "";
       in_max_results := ""; in_currency := "" |} []
  = (take 5 cli_prompts, Raise ValueError).
Proof.
  apply (read_search_args_bad_number
           {| in_origin := "JFK"; in_destination := "LAX";
              in_departure_date := "2026-03-01"; in_return_date := "";
              in_adults := "two"; in_non_stop := ""; in_max_results := "";
              in_currency := "" |} []).
  - vm_compute. discriminate.
  - vm_compute. reflexivity.
Defined.

(** X14: when the questioning succeeds, all eight questions were asked,
    the codes and the date are the answers without surrounding blanks (the
    codes in upper case), the numbers are what [int] makes of the answers
    or the defaults 1 and 10 for blank ones, and the outbound call carries
    returnDate exactly when the answer for the return date is not blank. *)
Theorem read_search_args_accepted (i : cli_inputs) (written : list string)
    (args : search_args) :
  read_search_args i [] = (written, Ok args) ->
  written = cli_prompts
  /\ origin args = str_upper (str_strip (in_origin i))
  /\ destination args = str_upper (str_strip (in_destination i))
  /\ departure_date args = str_strip (in_departure_date i)
  /\ (if nonempty (str_strip (in_adults i)) then py_int (str_strip (in_adults i))
      else Ok 1%Z) = Ok (adults args)
  /\ (if nonempty (str_strip (in_max_results i))
      then py_int (str_strip (in_max_results i)) else Ok 10%Z) = Ok (max_results args)
  /\ non_stop args = String.eqb (str_lower (str_strip (in_non_stop i))) "y"
  /\ request_params args !! "returnDate"
     = (if nonempty (str_strip (in_return_date i))
        then Some (VStr (str_strip (in_return_date i))) else None).
Proof.
  unfold read_search_args, prog_bind, input, prog_lift, prog_ret.
  cbv beta iota zeta.
  destruct (if nonempty (str_strip (in_adults i)) then _ else _) as [ad|e1]; [|done].
  destruct (if nonempty (str_strip (in_max_results i)) then _ else _) as [mr|e2]; [|done].
  intros [= <- <-]. cbn [origin destination departure_date adults max_results non_stop].
  repeat split. rewrite request_params_lookup. cbn [return_date].
  unfold nonempty. by destruct (truthy (VStr (str_strip (in_return_date i)))) eqn:E;
    cbn [option_str]; rewrite ?E.
Qed.

Lemma read_search_args_accepted_witness :
  request_params sample_cli_args !! "returnDate" = None.
Proof.
  destruct (read_search_args_accepted sample_inputs cli_prompts sample_cli_args)
    as (_ & _ & _ & _ & _ & _ & _ & H).
  - vm_compute. reflexivity.
  - exact H.
Defined.

Lemma writes_bind_value {A : Type} (k : nat) (m : prog (list string) A) (a : A)
    (written : list string) (f : A -> prog (list string) unit) :
  (forall out, m out = ((out ++ written)%list, Ok a)) ->
  writes k (f a) -> writes (length written + k) (prog_bind m f).
Proof.
  intros Hm Hf out. destruct (Hf (out ++ written)%list) as (l2 & H2 & Hk).
  exists (written ++ l2)%list. unfold prog_bind. rewrite Hm, H2, app_assoc.
  split; [done|]. rewrite length_app. lia.
Qed.

Section MainFacts.
Variable py_str : value -> string.
Variable exn_text : pyerr -> string.

Lemma main_body_until_search amadeus (i : cli_inputs) (out written : list string)
    (args : search_args) :
  read_search_args i [] = (written, Ok args) ->
  exists lines,
    length lines = length written + 4
    /\ main_body py_str amadeus i out =
       match compare_flights amadeus args with
       | Ok flights =>
           match flights with
           | _ :: _ =>
               (let* _ := print (NL +:+ "Found " +:+ pretty (length flights)
                                 +:+ " flights (sorted by price):" +:+ NL) in
                let* _ := print (str_repeat "=" 50) in
                for_enumerate 1 flights
                  (fun n flight =>
                     let* _ := display_flight py_str flight (Some (Z.of_nat n)) in
                     print (str_repeat "-" 50))) (out ++ lines)%list
           | [] =>
               print "No flights found. Please check your search parameters."
                 (out ++ lines)%list
           end
       | Raise e => ((out ++ lines)%list, Raise e)
       end.
Proof.
  intros Hread. eexists. split; [|].
  2: { unfold main_body, prog_bind at 1 2 3 4 5 6. unfold print at 1 2 3 4, prog_lift.
       cbv beta iota.
       rewrite (read_search_args_appends i), Hread. cbn [fst snd]. cbv beta iota.
       rewrite <- !app_assoc. cbn [app].
       destruct (compare_flights amadeus args) as [[|f fs]|e]; reflexivity. }
  simpl. rewrite length_app. simpl. lia.
Qed.

(** X15: a [ValueError] raised while the offers are ranked, as for a price
    total that [float] rejects, is caught by the handler for wrong input:
    [main] returns, and the last line it writes starts with Invalid input. *)
Theorem main_reports_invalid_input (api_key api_secret : option string) amadeus
    (i : cli_inputs) (out written : list string) (args : search_args) :
  is_ok (aggregator_init api_key api_secret) = true ->
  read_search_args i [] = (written, Ok args) ->
  compare_flights amadeus args = Raise ValueError ->
  exists out',
    main py_str exn_text api_key api_secret amadeus i out = (out', Ok tt)
    /\ last out' = Some ("Invalid input: " +:+ exn_text ValueError +:+ NL).
Proof.
  intros Hinit Hread Hcmp. unfold main.
  destruct (aggregator_init api_key api_secret); [|done].
  destruct (main_body_until_search amadeus i out written args Hread) as (lines & _ & ->).
  rewrite Hcmp. eexists. split; [reflexivity|]. apply last_snoc.
Qed.


End MainFacts.

Lemma main_reports_invalid_input_witness :
  exists out',
    main plain_str plain_exn (Some "key") (Some "secret")
      (client_returning (VList [ sample_offer "1" "N/A" ])) sample_inputs []
    = (out', Ok tt)
    /\ last out' = Some ("Invalid input: " +:+ plain_exn ValueError +:+ NL).
Proof.
  apply (main_reports_invalid_input plain_str plain_exn (Some "key") (Some "secret")
           (client_returning (VList [ sample_offer "1" "N/A" ])) sample_inputs []
           cli_prompts sample_cli_args).
  - reflexivity.
  - vm_compute. reflexivity.
  - reflexivity.
Defined.


(** ** The window *)

Lemma prog_bind_ok {St A B : Type} (m : prog St A) (k : A -> prog St B)
    (s s' : St) (a : A) :
  m s = (s', Ok a) -> prog_bind m k s = k a s'.
Proof. unfold prog_bind. by intros ->. Qed.

Lemma with_results_nil (w : Gui.window) : with_results [] w = w.
Proof. destruct w. unfold with_results. simpl. by rewrite app_nil_r. Qed.

Lemma with_results_app (c1 c2 : list (string * option string)) (w : Gui.window) :
  with_results c2 (with_results c1 w) = with_results (c1 ++ c2) w.
Proof. unfold with_results. simpl. by rewrite app_assoc. Qed.

Lemma only_inserts_insert (text : string) (tag : option string) :
  only_inserts (Gui.insert_results text tag).
Proof. intros w. by exists [ (text, tag) ]. Qed.

Lemma only_inserts_ret : only_inserts (prog_ret tt).
Proof. intros w. exists []. by rewrite with_results_nil. Qed.

Lemma only_inserts_bind (m : prog Gui.window unit) (f : unit -> prog Gui.window unit) :
  only_inserts m -> only_inserts (f tt) -> only_inserts (prog_bind m f).
Proof.
  intros Hm Hf w. destruct (Hm w) as (c1 & H1).
  destruct (Hf (with_results c1 w)) as (c2 & H2).
  exists (c1 ++ c2)%list. by rewrite (prog_bind_ok _ _ _ _ _ H1), H2, with_results_app.
Qed.

Lemma only_inserts_lift {A : Type} (r : result A) (a : A) (f : A -> prog Gui.window unit) :
  r = Ok a -> only_inserts (f a) -> only_inserts (prog_bind (prog_lift r) f).
Proof. intros -> Hf w. exact (Hf w). Qed.

Lemma only_inserts_for_enumerate {A : Type} (l : list A) (i : nat)
    (body : nat -> A -> prog Gui.window unit) :
  Forall (fun x => forall j, only_inserts (body j x)) l ->
  only_inserts (for_enumerate i l body).
Proof.
  intros H. revert i. induction H as [|x xs Hx _ IH]; intros i; simpl.
  - apply only_inserts_ret.
  - apply only_inserts_bind; [apply Hx|apply IH].
Qed.

Lemma length_str_upper (s : string) : String.length (str_upper s) = String.length s.
Proof.
  unfold str_upper. induction s as [|c s IH]; [done|].
  simpl. by rewrite IH.
Qed.

Lemma nonempty_length (s : string) : nonempty s = negb (String.length s =? 0)%nat.
Proof. by destruct s. Qed.

Section WindowFacts.
Variable py_str : value -> string.
Variable exn_text : pyerr -> string.

Lemma format_segment_inserts (j : nat) (segment : value) :
  segment_keys_present segment = true -> only_inserts (Gui._format_segment py_str j segment).
Proof.
  unfold segment_keys_present. rewrite andb_true_iff. intros [Hkeys Hnested].
  destruct (has_key_getitem segment "departure" _ Hkeys) as (dep & Hdep & _);
    [simpl; tauto|].
  destruct (has_key_getitem segment "arrival" _ Hkeys) as (arr & Harr & _);
    [simpl; tauto|].
  destruct (has_key_getitem segment "carrier" _ Hkeys) as (carrier & _ & Hcarrier);
    [simpl; tauto|].
  destruct (has_key_getitem segment "flight_number" _ Hkeys) as (number & _ & Hnumber);
    [simpl; tauto|].
  destruct (has_key_getitem segment "duration" _ Hkeys) as (duration & _ & Hduration);
    [simpl; tauto|].
  rewrite Hdep, Harr in Hnested. apply andb_true_iff in Hnested as [Hd Ha].
  destruct (has_key_getitem dep "airport" _ Hd) as (da & Hda & _); [simpl; tauto|].
  destruct (has_key_getitem dep "time" _ Hd) as (dt & Hdt & _); [simpl; tauto|].
  destruct (has_key_getitem arr "airport" _ Ha) as (aa & Haa & _); [simpl; tauto|].
  destruct (has_key_getitem arr "time" _ Ha) as (at' & Hat & _); [simpl; tauto|].
  unfold Gui._format_segment.
  apply only_inserts_bind; [apply only_inserts_insert|].
  eapply only_inserts_lift; [exact Hcarrier|].
  eapply only_inserts_lift; [exact Hnumber|].
  apply only_inserts_bind; [apply only_inserts_insert|].
  eapply only_inserts_lift; [exact (getitem2_ok _ _ _ _ _ Hdep Hda)|].
  eapply only_inserts_lift; [exact (getitem2_ok _ _ _ _ _ Harr Haa)|].
  apply only_inserts_bind; [apply only_inserts_insert|].
  eapply only_inserts_lift; [exact (getitem2_ok _ _ _ _ _ Hdep Hdt)|].
  apply only_inserts_bind; [apply only_inserts_insert|].
  eapply only_inserts_lift; [exact (getitem2_ok _ _ _ _ _ Harr Hat)|].
  apply only_inserts_bind; [apply only_inserts_insert|].
  eapply only_inserts_lift; [exact Hduration|].
  apply only_inserts_insert.
Qed.

Lemma format_itinerary_inserts (i : nat) (itinerary : value) :
  is_parsed_itinerary itinerary = true ->
  only_inserts (Gui._format_itinerary py_str i itinerary).
Proof.
  unfold is_parsed_itinerary. rewrite andb_true_iff. intros [Hkeys Hsegs].
  destruct (has_key_getitem itinerary "duration" _ Hkeys) as (duration & _ & Hduration);
    [simpl; tauto|].
  destruct (field itinerary "segments") as [[| | | | |segs|]|] eqn:Hfield; try done.
  unfold Gui._format_itinerary. cbv zeta.
  eapply only_inserts_lift; [exact Hduration|].
  apply only_inserts_bind; [apply only_inserts_insert|].
  eapply only_inserts_lift; [exact (field_getitem _ _ _ Hfield)|].
  eapply only_inserts_lift; [reflexivity|].
  apply only_inserts_bind; [|apply only_inserts_insert].
  apply only_inserts_for_enumerate.
  apply List.Forall_forall. intros s Hs j. apply format_segment_inserts.
  by apply (proj1 (forallb_forall _ _) Hsegs).
Qed.

Lemma format_flight_inserts (flight : value) (index : nat) :
  is_parsed_offer flight = true -> only_inserts (Gui._format_flight py_str flight index).
Proof.
  unfold is_parsed_offer. rewrite !andb_true_iff. intros [[Hkeys Hprice] Hits].
  destruct (has_key_getitem flight "price" _ Hkeys) as (price & Hp & _); [simpl; tauto|].
  rewrite Hp in Hprice.
  destruct (has_key_getitem price "total" _ Hprice) as (total & Ht & _); [simpl; tauto|].
  destruct (has_key_getitem price "currency" _ Hprice) as (cur & Hc & _); [simpl; tauto|].
  destruct (field flight "itineraries") as [[| | | | |its|]|] eqn:Hfield; try done.
  unfold Gui._format_flight.
  apply only_inserts_bind; [apply only_inserts_insert|].
  eapply only_inserts_lift; [exact (getitem2_ok _ _ _ _ _ Hp Ht)|].
  eapply only_inserts_lift; [exact (getitem2_ok _ _ _ _ _ Hp Hc)|].
  apply only_inserts_bind; [apply only_inserts_insert|].
  eapply only_inserts_lift; [exact (field_getitem _ _ _ Hfield)|].
  eapply only_inserts_lift; [reflexivity|].
  apply only_inserts_for_enumerate.
  apply List.Forall_forall. intros it Hit j. apply format_itinerary_inserts.
  by apply (proj1 (forallb_forall _ _) Hits).
Qed.

Lemma display_results_parsed (flights : list value) (w : Gui.window) :
  Forall (fun p => is_parsed_offer p = true) flights ->
  exists chunks,
    Gui._display_results py_str flights w
    = ({| Gui.entries := Gui.entries w; Gui.search_button := Gui.normal;
          Gui.status_label := found_status flights;
          Gui.results_text := chunks; Gui.warnings := Gui.warnings w |}, Ok tt).
Proof.
  intros Hshape. destruct flights as [|f fs]; [by eexists|].
  assert (Hloop : only_inserts
            (for_enumerate 1 (f :: fs)
               (fun n flight =>
                  let* _ := Gui._format_flight py_str flight n in
                  Gui.insert_results (str_repeat "-" 80 +:+ NL +:+ NL) None))).
  { apply only_inserts_for_enumerate. eapply Forall_impl; [exact Hshape|].
    intros p Hp j. apply only_inserts_bind; [|apply only_inserts_insert].
    by apply format_flight_inserts. }
  unfold Gui._display_results.
  erewrite prog_bind_ok; [|reflexivity].
  match goal with
  | |- exists _, prog_bind ?branch _ ?w0 = _ =>
      assert (exists chunks,
                branch w0
                = ({| Gui.entries := Gui.entries w; Gui.search_button := Gui.search_button w;
                      Gui.status_label := found_status (f :: fs);
                      Gui.results_text := chunks; Gui.warnings := Gui.warnings w |}, Ok tt))
        as [chunks Hbranch]
  end.
  { erewrite prog_bind_ok; [|reflexivity].
    erewrite prog_bind_ok; [|reflexivity].
    match goal with
    | |- exists _, prog_bind _ _ ?w0 = _ => destruct (Hloop w0) as (chunks & Hchunks)
    end.
    eexists. erewrite prog_bind_ok; [|exact Hchunks]. reflexivity. }
  exists chunks. erewrite prog_bind_ok; [|exact Hbranch]. reflexivity.
Qed.

Lemma perform_search_state amadeus (w : Gui.window) :
  exists chunks,
    Gui._perform_search py_str exn_text amadeus w
    = ({| Gui.entries := Gui.entries w; Gui.search_button := Gui.normal;
          Gui.status_label :=
            match (do args <- Gui.search_args_of_form (Gui.entries w);
                   compare_flights amadeus args) with
            | Ok flights => found_status flights
            | Raise _ => "Error occurred"
            end;
          Gui.results_text := chunks; Gui.warnings := Gui.warnings w |}, Ok tt).
Proof.
  unfold Gui._perform_search.
  destruct (do args <- Gui.search_args_of_form (Gui.entries w);
            compare_flights amadeus args) as [flights|e] eqn:Hrun.
  - apply display_results_parsed.
    destruct (Gui.search_args_of_form (Gui.entries w)) as [args|]; [|done].
    simpl in Hrun. by eapply compare_flights_ok_shape.
  - by eexists.
Qed.

(** X17: a search always comes to an end in the window.  Whatever the
    form holds and whatever the call returns, [_perform_search] with its
    display raises nothing, leaves the form and the warnings as they were,
    enables the search button again, and sets the status line to No flights
    found, to Found N flights, or to Error occurred when an exception was
    caught. *)
Theorem perform_search_completes amadeus (w : Gui.window) :
  exists chunks,
    Gui._perform_search py_str exn_text amadeus w
    = ({| Gui.entries := Gui.entries w; Gui.search_button := Gui.normal;
          Gui.status_label :=
            match (do args <- Gui.search_args_of_form (Gui.entries w);
                   compare_flights amadeus args) with
            | Ok flights => found_status flights
            | Raise _ => "Error occurred"
            end;
          Gui.results_text := chunks; Gui.warnings := Gui.warnings w |}, Ok tt).
Proof. apply perform_search_state. Qed.

(** X18: when [int] rejects the number of passengers in the form, the
    search is not made: whatever the client would answer, the window shows
    the text of the [ValueError] alone, the status Error occurred, and the
    search button enabled. *)
Theorem perform_search_bad_number amadeus (w : Gui.window) :
  is_ok (py_int (Gui.adults_spinbox (Gui.entries w))) = false ->
  Gui._perform_search py_str exn_text amadeus w
  = ({| Gui.entries := Gui.entries w; Gui.search_button := Gui.normal;
        Gui.status_label := "Error occurred";
        Gui.results_text := [ ("❌ Error: " +:+ exn_text ValueError +:+ NL, None) ];
        Gui.warnings := Gui.warnings w |}, Ok tt).
Proof.
  intros Hbad. unfold Gui._perform_search, Gui.search_args_of_form. cbv zeta.
  destruct (py_int (Gui.adults_spinbox (Gui.entries w))) as [|e] eqn:E; [done|].
  by apply py_int_raises in E as ->.
Qed.

(** X21: the window reports every offer found.  When the form is accepted
    and the call returns a list of N raw offers, N at least one, whose price
    totals [float] accepts, the status line after the search reads Found N
    flights and the search button is enabled. *)
Theorem gui_reports_every_offer amadeus (w : Gui.window) (args : search_args)
    (raw_offers : list value) :
  Gui.search_args_of_form (Gui.entries w) = Ok args ->
  amadeus (request_params args) = ApiResponse (VList raw_offers) ->
  raw_offers <> [] ->
  Forall (fun o => is_raw_offer o = true) raw_offers ->
  Forall (fun o => float_parses (raw_total o) = true) raw_offers ->
  Gui.status_label (fst (Gui._perform_search py_str exn_text amadeus w))
  = "Found " +:+ pretty (length raw_offers) +:+ " flights"
  /\ Gui.search_button (fst (Gui._perform_search py_str exn_text amadeus w)) = Gui.normal.
Proof.
  intros Hargs Hresp Hne Hshape Hprices.
  destruct (perform_search_state amadeus w) as [chunks ->]. cbn [fst Gui.status_label
    Gui.search_button]. split; [|done].
  rewrite Hargs. cbn [bind].
  destruct (compare_flights_shaped _ _ _ Hresp Hshape) as [_ ->].
  destruct (list_sort_returns price_key (map offer_record raw_offers)) as [out Hout].
  { apply List.Forall_forall. intros p Hp.
    apply List.in_map_iff in Hp as (o & <- & Ho). rewrite price_key_offer_record.
    by apply (proj1 (List.Forall_forall _ _) Hprices). }
  rewrite Hout. apply list_sort_perm in Hout.
  assert (Hlen : length out = length raw_offers)
    by (by rewrite (Permutation_length Hout), length_map).
  destruct out as [|p out]; [by destruct raw_offers|].
  unfold found_status. by rewrite Hlen.
Qed.

End WindowFacts.

Lemma gui_reports_every_offer_witness :
  Gui.status_label
    (fst (Gui._perform_search plain_str plain_exn
            (client_returning (VList [ sample_offer "1" "250.00"; sample_offer "2" "99.99" ]))
            sample_window))
  = "Found 2 flights".
Proof.
  apply (gui_reports_every_offer plain_str plain_exn
           (client_returning (VList [ sample_offer "1" "250.00"; sample_offer "2" "99.99" ]))
           sample_window
           {| origin := "JFK"; destination := "LAX"; departure_date := "2026-03-01";
              adults := 1; return_date := None; max_results := 10;
              currency := "USD"; non_stop := false |}
           [ sample_offer "1" "250.00"; sample_offer "2" "99.99" ]).
  - vm_compute. reflexivity.
  - reflexivity.
  - discriminate.
  - repeat constructor.
  - repeat (constructor; [vm_compute; reflexivity|]). constructor.
Defined.

Lemma perform_search_bad_number_witness :
  let w :=
    {| Gui.entries :=
         {| Gui.origin_entry := "JFK"; Gui.destination_entry := "LAX";
            Gui.departure_cal := {| year := 2026; month := 3; day := 1 |};
            Gui.return_enabled := false;
            Gui.return_cal := {| year := 2026; month := 3; day := 9 |};
            Gui.adults_spinbox := "two"; Gui.max_results_spinbox := "10";
            Gui.currency_combo := "USD"; Gui.non_stop_var := false |};
       Gui.search_button := Gui.disabled; Gui.status_label := "Searching flights...";
       Gui.results_text := []; Gui.warnings := [] |} in
  Gui.status_label
    (fst (Gui._perform_search plain_str plain_exn
            (client_returning (VList [ sample_offer "1" "250.00" ])) w))
  = "Error occurred".
Proof.
  intros w.
  rewrite (perform_search_bad_number plain_str plain_exn
             (client_returning (VList [ sample_offer "1" "250.00" ])) w).
  - reflexivity.
  - vm_compute. reflexivity.
Defined.

Lemma gui_search_flights_help (w : Gui.window) :
  let origin := str_strip (Gui.origin_entry (Gui.entries w)) in
  let destination := str_strip (Gui.destination_entry (Gui.entries w)) in
  (String.length origin = 3 /\ String.length destination = 3 ->
   Gui.search_flights w
   = ({| Gui.entries := Gui.entries w; Gui.search_button := Gui.disabled;
         Gui.status_label := "Searching flights...";
         Gui.results_text := [ ("🔍 Searching for flights..." +:+ NL +:+ NL, None) ];
         Gui.warnings := Gui.warnings w |}, Ok true))
  /\ (String.length origin <> 3 \/ String.length destination <> 3 ->
      exists message,
        Gui.search_flights w
        = ({| Gui.entries := Gui.entries w; Gui.search_button := Gui.search_button w;
              Gui.status_label := Gui.status_label w;
              Gui.results_text := Gui.results_text w;
              Gui.warnings := (Gui.warnings w ++ [ ("Input Error", message) ])%list |},
           Ok false)).
Proof.
  cbv zeta. unfold Gui.search_flights. cbv zeta.
  rewrite !nonempty_length, !length_str_upper.
  generalize (String.length (str_strip (Gui.origin_entry (Gui.entries w)))).
  generalize (String.length (str_strip (Gui.destination_entry (Gui.entries w)))).
  intros m n. split.
  - intros [-> ->]. reflexivity.
  - intros H.
    destruct (Nat.eqb_spec n 0), (Nat.eqb_spec m 0); simpl; try (by eexists).
    destruct (Nat.eqb_spec n 3), (Nat.eqb_spec m 3); simpl; try (by eexists).
    lia.
Qed.



(** X20: the codes of a search that the window started have three
    characters: after [search_flights] has started the search, the
    arguments read off the form carry an origin and a destination of
    length three, in upper case. *)
Theorem gui_search_sends_three_letters (w w' : Gui.window) (args : search_args) :
  Gui.search_flights w = (w', Ok true) ->
  Gui.search_args_of_form (Gui.entries w') = Ok args ->
  String.length (origin args) = 3
  /\ String.length (destination args) = 3
  /\ origin args = str_upper (str_strip (Gui.origin_entry (Gui.entries w)))
  /\ destination args = str_upper (str_strip (Gui.destination_entry (Gui.entries w)))
  /\ Gui.search_button w' = Gui.disabled.
Proof.
  intros Hstart Hargs.
  destruct (Nat.eq_dec (String.length (str_strip (Gui.origin_entry (Gui.entries w)))) 3)
    as [Ho|Ho];
    [destruct (Nat.eq_dec
                 (String.length (str_strip (Gui.destination_entry (Gui.entries w)))) 3)
       as [Hd|Hd]|].
  - rewrite (proj1 (gui_search_flights_help w) (conj Ho Hd)) in Hstart.
    injection Hstart as <-. cbn [Gui.entries Gui.search_button] in *.
    unfold Gui.search_args_of_form in Hargs. cbv zeta in Hargs.
    destruct (py_int _) in Hargs; [|done]. destruct (py_int _) in Hargs; [|done].
    cbn [bind] in Hargs. injection Hargs as <-.
    cbn [origin destination]. by rewrite !length_str_upper.
  - destruct (proj2 (gui_search_flights_help w) (or_intror Hd)) as [msg Hmsg].
    rewrite Hmsg in Hstart. done.
  - destruct (proj2 (gui_search_flights_help w) (or_introl Ho)) as [msg Hmsg].
    rewrite Hmsg in Hstart. done.
Qed.

Lemma gui_search_sends_three_letters_witness :
  String.length "JFK" = 3 /\ String.length "LAX" = 3.
Proof.
  destruct (gui_search_sends_three_letters sample_window
              (fst (Gui.search_flights sample_window))
              {| origin := "JFK"; destination := "LAX"; departure_date := "2026-03-01";
                 adults := 1; return_date := None; max_results := 10;
                 currency := "USD"; non_stop := false |})
    as (Ho & Hd & _).
  - reflexivity.
  - vm_compute. reflexivity.
  - split; [exact Ho|exact Hd].
Defined.
